(** * dbus_next.service: decorators, interface registration and signal dispatch

    A shallow embedding of [src/dbus_next/service.py]: the [method], [signal]
    and [dbus_property] decorators, [ServiceInterface.__init__] with its
    getter/setter merge, [emit_properties_changed], [introspect] and the
    conversion of a function result into a message body. *)

From Stdlib Require Import String List ZArith Bool Lia.
From stdpp Require Import base option list gmap sets strings.

Local Open Scope string_scope.
Local Set Warnings "-register-all".

(** ** Python values and exceptions *)

(** The values user callables return and message bodies carry.  [PyList] and
    [PyTuple] are kept apart because the code tests [type(result) is list].
    [PyVariant] is [signature.Variant(signature, value)], a tagged value. *)
Inductive pyvalue : Type :=
  | PyNone
  | PyBool (b : bool)
  | PyInt (z : Z)
  | PyStr (s : string)
  | PyList (l : list pyvalue)
  | PyTuple (l : list pyvalue)
  | PyDict (d : gmap string pyvalue)
  | PyVariant (signature : string) (value : pyvalue).

(** The exceptions raised in [service.py], with their messages, and
    [UserError] for whatever a user callable raises. *)
Inductive exn : Type :=
  | ValueError (msg : string)
  | TypeError (msg : string)
  | AttributeError (msg : string)
  | SignalDisabledError (msg : string)
  | SignatureBodyMismatchError (msg : string)
  | SignatureError (msg : string)
  | InvalidMemberNameError (msg : string)
  | InvalidInterfaceNameError (msg : string)
  | InvalidIntrospectionError (msg : string)
  | KeyError (msg : string)
  | UnboundLocalError (msg : string)
  | UserError (msg : string).

(** A call either returns or raises. *)
Inductive outcome (A : Type) : Type :=
  | Returns (a : A)
  | Raises (e : exn).
Arguments Returns {A} a.
Arguments Raises {A} e.

Definition outcome_bind {A B} (m : outcome A) (k : A -> outcome B) : outcome B :=
  match m with
  | Returns a => k a
  | Raises e => Raises e
  end.

Declare Scope py_scope.
Delimit Scope py_scope with py.
Notation "'let?' x := m 'in' k" := (outcome_bind m (fun x => k))
  (at level 10, x name, m at level 100, k at level 200) : py_scope.
Local Open Scope py_scope.

(** The double-quote character, for messages that quote a name. *)
Definition dquote : string := String (Ascii.ascii_of_nat 34) EmptyString.

(** ** External collaborators *)

(** Modelled from the spec: [constants.PropertyAccess] is not part of the
    sources at hand; the access modes are READ, WRITE and READWRITE and the
    modes that permit writing are WRITE and READWRITE. *)
Inductive PropertyAccess : Type := READ | WRITE | READWRITE.

Definition writable (a : PropertyAccess) : bool :=
  match a with
  | READ => false
  | WRITE | READWRITE => true
  end.

(** Modelled from the spec: the [introspection] module is outside the sources
    at hand; its classes are records of the arguments they are built from.
    What their constructors check before building them is part of
    [Collaborators] below. *)
Module intr.
Inductive ArgDirection : Type := IN | OUT.
Record Arg : Type :=
  mkArg { arg_type : string; arg_direction : ArgDirection; arg_name : option string }.
Record Method : Type :=
  mkMethod { method_name : string; in_args : list Arg; out_args : list Arg }.
Record Signal : Type :=
  mkSignal { signal_name : string; signal_args : list Arg }.
Record Property : Type :=
  mkProperty { property_name : string; property_signature : string;
               property_access : PropertyAccess }.
Record Interface : Type :=
  mkInterface { interface_name : string; methods : list Method;
                signals : list Signal; properties : list Property }.
End intr.

(** The parsed form of a signature string: its complete types, in order. *)
Record signature_tree : Type := { types : list string }.

(** The collaborators outside the sources at hand, taken as parameters.  The
    parser [signature.SignatureTree] either returns the tree or raises.  The
    constructors [intr.Arg], [intr.Method], [intr.Signal], [intr.Property],
    [intr.Interface] and [signature.Variant] either raise or build the object
    for their arguments: each comes with the check it makes, a function of
    its arguments. *)
Class Collaborators : Type := {
  SignatureTree : string -> outcome signature_tree;
  Arg_check : string -> intr.ArgDirection -> option string -> outcome unit;
  Method_check : string -> list intr.Arg -> list intr.Arg -> outcome unit;
  Signal_check : string -> list intr.Arg -> outcome unit;
  Property_check : string -> string -> PropertyAccess -> outcome unit;
  Interface_check : string -> list intr.Method -> list intr.Signal ->
                    list intr.Property -> outcome unit;
  Variant_check : string -> pyvalue -> outcome unit
}.

(** [intr.Arg(signature, direction, name)] and the other constructors. *)
Definition intr_Arg `{Collaborators} (signature : string) (direction : intr.ArgDirection)
    (name : option string) : outcome intr.Arg :=
  let? _ := Arg_check signature direction name in
  Returns (intr.mkArg signature direction name).

Definition intr_Method `{Collaborators} (name : string) (in_args out_args : list intr.Arg)
  : outcome intr.Method :=
  let? _ := Method_check name in_args out_args in
  Returns (intr.mkMethod name in_args out_args).

Definition intr_Signal `{Collaborators} (name : string) (args : list intr.Arg)
  : outcome intr.Signal :=
  let? _ := Signal_check name args in
  Returns (intr.mkSignal name args).

Definition intr_Property `{Collaborators} (name signature : string) (access : PropertyAccess)
  : outcome intr.Property :=
  let? _ := Property_check name signature access in
  Returns (intr.mkProperty name signature access).

Definition intr_Interface `{Collaborators} (name : string) (methods : list intr.Method)
    (signals : list intr.Signal) (properties : list intr.Property) : outcome intr.Interface :=
  let? _ := Interface_check name methods signals properties in
  Returns (intr.mkInterface name methods signals properties).

(** [Variant(signature, value)] *)
Definition Variant `{Collaborators} (signature : string) (value : pyvalue) : outcome pyvalue :=
  let? _ := Variant_check signature value in
  Returns (PyVariant signature value).

(** ** User callables *)

Record param : Type := { param_name : string; param_annotation : option string }.

(** A Python function object.  [fn_id] is its identity (what [is] compares),
    [fn_parameters] and [fn_return_annotation] are what [inspect.signature]
    reports, [fn_body] is the result of calling it on the arguments that
    follow [self]. *)
Record pyfn : Type := {
  fn_id : nat;
  fn_name : string;
  fn_parameters : list param;
  fn_return_annotation : option string;
  fn_body : list pyvalue -> outcome pyvalue
}.

Definition fn_is (f g : pyfn) : bool := Nat.eqb (fn_id f) (fn_id g).

(** ** Member descriptors *)

Record _Method : Type := {
  method_name : string;
  method_fn : pyfn;
  method_disabled : bool;
  method_introspection : intr.Method;
  in_signature : string;
  out_signature : string;
  in_signature_tree : signature_tree;
  out_signature_tree : signature_tree
}.

Record _Signal : Type := {
  signal_signature : string;
  signal_signature_tree : signature_tree;
  signal_name : string;
  signal_disabled : bool;
  signal_introspection : intr.Signal
}.

(** The [options] dictionary of a property; [None] is an absent key, and the
    value under ['name'] may itself be [None]. *)
Record options_dict : Type := {
  opt_name : option (option string);
  opt_access : option PropertyAccess;
  opt_disabled : option bool
}.

Record _Property : Type := {
  prop_getter : pyfn;
  prop_setter : option pyfn;
  prop_signature : string;
  prop_type : string;
  prop_options : options_dict;
  prop_name : string;
  prop_access : PropertyAccess;
  prop_disabled : bool;
  prop_introspection : intr.Property
}.

(** Property descriptors are class-level objects that [__init__] mutates in
    place, so they live in a store and are referred to by reference. *)
Abbreviation objref := nat.
Abbreviation bus := nat.

Record ServiceInterface : Type := {
  iface_name : string;
  __methods : list _Method;
  __properties : list objref;
  __signals : list _Signal;
  __buses : gset bus
}.

(** What a transport receives through [_interface_signal_notify]. *)
Record notification : Type := {
  n_owner : ServiceInterface;
  n_interface : string;
  n_member : string;
  n_signature : string;
  n_body : list pyvalue
}.

(** ** The world: property store, calls made, notifications sent *)

Record call : Type := { callee : nat; call_args : list pyvalue }.

Record world : Type := {
  heap : objref -> _Property;
  calls : list call;
  sent : list (bus * notification)
}.

Definition M (A : Type) : Type := world -> outcome A * world.

Definition ret {A} (a : A) : M A := fun w => (Returns a, w).
Definition raise {A} (e : exn) : M A := fun w => (Raises e, w).
Definition bind {A B} (m : M A) (k : A -> M B) : M B :=
  fun w => match m w with
           | (Returns a, w') => k a w'
           | (Raises e, w') => (Raises e, w')
           end.
Definition lift {A} (o : outcome A) : M A := fun w => (o, w).

Notation "'let*' x := m 'in' k" := (bind m (fun x => k))
  (at level 10, x name, m at level 100, k at level 200) : py_scope.

Definition deref (r : objref) : M _Property := fun w => (Returns (heap w r), w).

(** [p.prop_setter = s] *)
Definition with_setter (p : _Property) (s : option pyfn) : _Property :=
  {| prop_getter := prop_getter p; prop_setter := s;
     prop_signature := prop_signature p; prop_type := prop_type p;
     prop_options := prop_options p; prop_name := prop_name p;
     prop_access := prop_access p; prop_disabled := prop_disabled p;
     prop_introspection := prop_introspection p |}.

Definition store_setter (r : objref) (s : option pyfn) (w : world) : world :=
  {| heap := fun r' => if Nat.eqb r' r then with_setter (heap w r) s else heap w r';
     calls := calls w; sent := sent w |}.

Definition record_call (f : pyfn) (args : list pyvalue) (w : world) : world :=
  {| heap := heap w; calls := calls w ++ [{| callee := fn_id f; call_args := args |}];
     sent := sent w |}.

Definition record_sent (l : list (bus * notification)) (w : world) : world :=
  {| heap := heap w; calls := calls w; sent := sent w ++ l |}.

Definition set_prop_setter (r : objref) (s : option pyfn) : M unit :=
  fun w => (Returns tt, store_setter r s w).

(** Calling a user callable: the call is recorded, the body decides the
    result. *)
Definition call_fn (f : pyfn) (args : list pyvalue) : M pyvalue :=
  fun w => (fn_body f args, record_call f args w).

(** [bus._interface_signal_notify(...)]: the transport layer is outside the
    sources at hand; a notification is recorded against the transport. *)
Definition _interface_signal_notify (b : bus) (n : notification) : M unit :=
  fun w => (Returns tt, record_sent [(b, n)] w).

(** [for x in xs: body(x)] *)
Fixpoint for_each {A} (xs : list A) (body : A -> M unit) : M unit :=
  match xs with
  | [] => ret tt
  | x :: rest => let* _ := body x in for_each rest body
  end.

(** ** Building the descriptors *)

Section Descriptors.
Context `{Collaborators}.

(** The loop of [_Method.__init__] over the parameters that follow [self]. *)
Fixpoint method_in_args (ps : list param) (in_args : list intr.Arg) (in_sig : string)
  : outcome (list intr.Arg * string) :=
  match ps with
  | [] => Returns (in_args, in_sig)
  | p :: rest =>
      match param_annotation p with
      | None =>
          Raises (ValueError
            "method parameters must specify the dbus type string as an annotation")
      | Some a =>
          let? arg := intr_Arg a intr.IN (Some (param_name p)) in
          method_in_args rest (in_args ++ [arg]) (in_sig ++ a)
      end
  end.

(** The OUT arguments a return annotation declares. *)
Definition out_args_of (tree : signature_tree) : list intr.Arg :=
  map (fun type_ => intr.mkArg type_ intr.OUT None) (types tree).

(** The loop that builds them, one [intr.Arg(type_, OUT)] per type. *)
Fixpoint make_out_args (ts : list string) (out_args : list intr.Arg)
  : outcome (list intr.Arg) :=
  match ts with
  | [] => Returns out_args
  | type_ :: rest =>
      let? arg := intr_Arg type_ intr.OUT None in
      make_out_args rest (out_args ++ [arg])
  end.

Definition _Method_init (fn : pyfn) (name : string) (disabled : bool) : outcome _Method :=
  let? ins := method_in_args (tail (fn_parameters fn)) [] EmptyString in
  let? outs :=
    match fn_return_annotation fn with
    | Some r =>
        let? tree := SignatureTree r in
        let? out_args := make_out_args (types tree) [] in
        Returns (r, out_args)
    | None => Returns (EmptyString, [])
    end in
  let? introspection := intr_Method name (fst ins) (snd outs) in
  let? in_tree := SignatureTree (snd ins) in
  let? out_tree := SignatureTree (fst outs) in
  Returns {| method_name := name; method_fn := fn; method_disabled := disabled;
             method_introspection := introspection;
             in_signature := snd ins; out_signature := fst outs;
             in_signature_tree := in_tree; out_signature_tree := out_tree |}.

Definition _Signal_init (fn : pyfn) (name : string) (disabled : bool) : outcome _Signal :=
  let? parsed :=
    match fn_return_annotation fn with
    | Some r =>
        let? tree := SignatureTree r in
        let? args := make_out_args (types tree) [] in
        Returns (r, tree, args)
    | None => let? tree := SignatureTree EmptyString in Returns (EmptyString, tree, [])
    end in
  let? introspection := intr_Signal name (snd parsed) in
  Returns {| signal_signature := fst (fst parsed);
             signal_signature_tree := snd (fst parsed);
             signal_name := name; signal_disabled := disabled;
             signal_introspection := introspection |}.

(** [name if name else fn.__name__]: [None] and the empty string are falsy. *)
Definition member_name_or (name : option string) (fn : pyfn) : string :=
  match name with
  | Some n => if String.eqb n EmptyString then fn_name fn else n
  | None => fn_name fn
  end.

(** The function object a [method] decorator returns: [wrapped], closed
    over [fn], with the descriptor stored under ['__DBUS_METHOD']. *)
Record wrapped_method : Type := { wm_fn : pyfn; wm_DBUS_METHOD : _Method }.

Definition method (name : option string) (disabled : bool) (fn : pyfn)
  : outcome wrapped_method :=
  let? m := _Method_init fn (member_name_or name fn) disabled in
  Returns {| wm_fn := fn; wm_DBUS_METHOD := m |}.

(** Likewise for [signal]: [wrapped] closes over [fn] and [signal]. *)
Record wrapped_signal : Type := { ws_fn : pyfn; ws_DBUS_SIGNAL : _Signal }.

Definition signal (name : option string) (disabled : bool) (fn : pyfn)
  : outcome wrapped_signal :=
  let? s := _Signal_init fn (member_name_or name fn) disabled in
  Returns {| ws_fn := fn; ws_DBUS_SIGNAL := s |}.

(** A property descriptor as [_Property.__init__] leaves it when no
    [options] keyword is given: [name], [access], [disabled] and
    [introspection] are not set yet. *)
Record property_base : Type := {
  base_getter : pyfn;
  base_setter : option pyfn;
  base_signature : string;
  base_type : string
}.

Definition _Property_init (fn : pyfn) : outcome property_base :=
  if negb (Nat.eqb (length (fn_parameters fn)) 1) then
    Raises (ValueError
      ("the property must only have the " ++ dquote ++ "self" ++ dquote
       ++ " input parameter"))
  else
    match fn_return_annotation fn with
    | None =>
        Raises (ValueError
          "the property must specify the dbus type string as a return annotation string")
    | Some r =>
        let? tree := SignatureTree r in
        match types tree with
        | [type_] =>
            Returns {| base_getter := fn; base_setter := None;
                       base_signature := r; base_type := type_ |}
        | _ => Raises (ValueError "the property signature must be a single complete type")
        end
    end.

Definition no_options : options_dict :=
  {| opt_name := None; opt_access := None; opt_disabled := None |}.

(** [for k, v in options.items(): self.options[k] = v] *)
Definition options_update (old new : options_dict) : options_dict :=
  {| opt_name := match opt_name new with Some v => Some v | None => opt_name old end;
     opt_access := match opt_access new with Some v => Some v | None => opt_access old end;
     opt_disabled :=
       match opt_disabled new with Some v => Some v | None => opt_disabled old end |}.

(** The descriptor [set_options] leaves when [intr.Property] accepts its
    arguments; [old] is the [options] attribute before the call (the empty
    dictionary when the attribute is missing). *)
Definition with_options (self : property_base) (old options : options_dict) : _Property :=
  let name :=
    match opt_name options with
    | Some (Some n) => n
    | _ => fn_name (base_getter self)
    end in
  let access := match opt_access options with Some a => a | None => READWRITE end in
  let disabled := match opt_disabled options with Some d => d | None => false end in
  {| prop_getter := base_getter self; prop_setter := base_setter self;
     prop_signature := base_signature self; prop_type := base_type self;
     prop_options := options_update old options;
     prop_name := name; prop_access := access; prop_disabled := disabled;
     prop_introspection := intr.mkProperty name (base_signature self) access |}.

(** [set_options]: the options are stored, name, access and disabled flag are
    read from them, and [intr.Property(self.name, self.signature,
    self.access)] is built, which may raise. *)
Definition set_options (self : property_base) (old options : options_dict)
  : outcome _Property :=
  let p := with_options self old options in
  let? introspection := intr_Property (prop_name p) (prop_signature p) (prop_access p) in
  Returns {| prop_getter := prop_getter p; prop_setter := prop_setter p;
             prop_signature := prop_signature p; prop_type := prop_type p;
             prop_options := prop_options p; prop_name := prop_name p;
             prop_access := prop_access p; prop_disabled := prop_disabled p;
             prop_introspection := introspection |}.

(** [dbus_property(access, name, disabled)(fn)] *)
Definition dbus_property (access : PropertyAccess) (name : option string)
    (disabled : bool) (fn : pyfn) : outcome _Property :=
  let options := {| opt_name := Some name; opt_access := Some access;
                    opt_disabled := Some disabled |} in
  let? self := _Property_init fn in
  set_options self no_options options.

(** [_Property.setter]: [super().setter(fn)] builds a new descriptor of the
    same class from the old getter, which runs [__init__] again without
    options; then the setter is stored and the options are applied again. *)
Definition setter (self : _Property) (fn : pyfn) : outcome _Property :=
  let? result := _Property_init (prop_getter self) in
  let result := {| base_getter := base_getter result; base_setter := Some fn;
                   base_signature := base_signature result;
                   base_type := base_type result |} in
  set_options result no_options (prop_options self).

End Descriptors.

(** ** ServiceInterface *)

(** What [inspect.getmembers(type(self))] yields: property descriptors (by
    reference), decorated methods and signals, and everything else, of which
    only a possible [name] attribute is ever looked at. *)
Inductive member : Type :=
  | MemberProperty (r : objref)
  | MemberMethod (m : wrapped_method)
  | MemberSignal (s : wrapped_signal)
  | MemberOther (name_attr : option string).

Definition with_methods (self : ServiceInterface) (ms : list _Method) : ServiceInterface :=
  {| iface_name := iface_name self; __methods := ms; __properties := __properties self;
     __signals := __signals self; __buses := __buses self |}.

Definition with_properties (self : ServiceInterface) (ps : list objref) : ServiceInterface :=
  {| iface_name := iface_name self; __methods := __methods self; __properties := ps;
     __signals := __signals self; __buses := __buses self |}.

Definition with_signals (self : ServiceInterface) (ss : list _Signal) : ServiceInterface :=
  {| iface_name := iface_name self; __methods := __methods self;
     __properties := __properties self; __signals := ss; __buses := __buses self |}.

Definition with_buses (self : ServiceInterface) (bs : gset bus) : ServiceInterface :=
  {| iface_name := iface_name self; __methods := __methods self;
     __properties := __properties self; __signals := __signals self; __buses := bs |}.

(** The inner loop of [__init__]: look for a collected property with the
    same getter object and give it the member's setter when there is one. *)
Fixpoint merge_property (member : objref) (props : list objref) (found : bool) : M bool :=
  match props with
  | [] => ret found
  | prop :: rest =>
      let* p := deref prop in
      let* m := deref member in
      if fn_is (prop_getter p) (prop_getter m) then
        let* _ := match prop_setter m with
                  | Some s => set_prop_setter prop (Some s)
                  | None => ret tt
                  end in
        merge_property member rest true
      else merge_property member rest found
  end.

(** The outer loop of [__init__]. *)
Fixpoint collect_members (members : list (string * member)) (self : ServiceInterface)
  : M ServiceInterface :=
  match members with
  | [] => ret self
  | (_, MemberProperty r) :: rest =>
      let* found := merge_property r (__properties self) false in
      collect_members rest
        (if found then self else with_properties self (__properties self ++ [r]))
  | (_, MemberMethod m) :: rest =>
      collect_members rest (with_methods self (__methods self ++ [wm_DBUS_METHOD m]))
  | (_, MemberSignal s) :: rest =>
      collect_members rest (with_signals self (__signals self ++ [ws_DBUS_SIGNAL s]))
  | (_, MemberOther _) :: rest => collect_members rest self
  end.

(** [x is None] *)
Definition is_None {A} (x : option A) : bool :=
  match x with
  | None => true
  | Some _ => false
  end.

(** [member.name], for the member the outer loop ended on. *)
Definition member_name_attr (last_member : option member) : M string :=
  match last_member with
  | Some (MemberProperty r) => let* p := deref r in ret (prop_name p)
  | Some (MemberOther (Some n)) => ret n
  | Some _ => raise (AttributeError "name")
  | None => raise (UnboundLocalError "member")
  end.

(** The validation loop of [__init__]; the message is formatted from
    [member], the last member of the outer loop, not from [prop]. *)
Fixpoint validate_setters (last_member : option member) (props : list objref) : M unit :=
  match props with
  | [] => ret tt
  | prop :: rest =>
      let* p := deref prop in
      if writable (prop_access p) && is_None (prop_setter p) then
        let* n := member_name_attr last_member in
        raise (ValueError ("property " ++ dquote ++ n ++ dquote
                           ++ " is writable but does not have a setter"))
      else validate_setters last_member rest
  end.

Definition ServiceInterface__init__ (name : string) (members : list (string * member))
  : M ServiceInterface :=
  let self := {| iface_name := name; __methods := []; __properties := [];
                 __signals := []; __buses := ∅ |} in
  let* self := collect_members members self in
  let* _ := validate_setters (last (map snd members)) (__properties self) in
  ret self.

Definition _add_bus (interface : ServiceInterface) (b : bus) : ServiceInterface :=
  with_buses interface ({[ b ]} ∪ __buses interface).

(** [set.remove] raises [KeyError] when the element is missing. *)
Definition _remove_bus (interface : ServiceInterface) (b : bus) : outcome ServiceInterface :=
  if decide (b ∈ __buses interface)
  then Returns (with_buses interface (__buses interface ∖ {[ b ]}))
  else Raises (KeyError "bus").

Definition _get_buses (interface : ServiceInterface) : gset bus := __buses interface.
Definition _get_properties (interface : ServiceInterface) : list objref :=
  __properties interface.
Definition _get_methods (interface : ServiceInterface) : list _Method := __methods interface.
Definition _get_signals (interface : ServiceInterface) : list _Signal := __signals interface.

(** The first loop of [emit_properties_changed]; [Variant(prop.signature,
    value)] may raise. *)
Fixpoint build_variant_dict `{Collaborators} (props : list objref)
    (changed_properties : gmap string pyvalue)
    (variant_dict : gmap string pyvalue) : M (gmap string pyvalue) :=
  match props with
  | [] => ret variant_dict
  | r :: rest =>
      let* prop := deref r in
      match changed_properties !! prop_name prop with
      | Some v =>
          let* tagged := lift (Variant (prop_signature prop) v) in
          build_variant_dict rest changed_properties
            (<[prop_name prop := tagged]> variant_dict)
      | None => build_variant_dict rest changed_properties variant_dict
      end
  end.

Definition emit_properties_changed `{Collaborators} (self : ServiceInterface)
    (changed_properties : gmap string pyvalue) (invalidated_properties : pyvalue) : M unit :=
  let* variant_dict := build_variant_dict (_get_properties self) changed_properties ∅ in
  let body := [PyStr (iface_name self); PyDict variant_dict; invalidated_properties] in
  for_each (elements (_get_buses self)) (fun b =>
    _interface_signal_notify b
      {| n_owner := self; n_interface := "org.freedesktop.DBus.Properties";
         n_member := "PropertiesChanged"; n_signature := "sa{sv}as"; n_body := body |}).

(** [[prop.introspection for prop in ... if not prop.disabled]] *)
Fixpoint introspect_properties (props : list objref) : M (list intr.Property) :=
  match props with
  | [] => ret []
  | r :: rest =>
      let* prop := deref r in
      let* tl := introspect_properties rest in
      ret (if prop_disabled prop then tl else prop_introspection prop :: tl)
  end.

Definition introspect `{Collaborators} (self : ServiceInterface) : M intr.Interface :=
  let* props := introspect_properties (_get_properties self) in
  lift (intr_Interface (iface_name self)
          (map method_introspection
               (List.filter (fun m => negb (method_disabled m)) (_get_methods self)))
          (map signal_introspection
               (List.filter (fun s => negb (signal_disabled s)) (_get_signals self)))
          props).

Definition _fn_result_to_body (result : pyvalue) (tree : signature_tree)
  : outcome (list pyvalue) :=
  let out_len := length (types tree) in
  match result with
  | PyNone => Returns []
  | _ =>
      if Nat.eqb out_len 0 then
        Raises (SignatureBodyMismatchError "Function was not expected to return an argument")
      else if Nat.eqb out_len 1 then Returns [result]
      else
        match result with
        | PyList l => Returns l
        | _ =>
            Raises (SignatureBodyMismatchError
                      "Expected function to return a list of arguments")
        end
  end.

Definition _handle_signal (interface : ServiceInterface) (sg : _Signal) (result : pyvalue)
  : M unit :=
  let* body := lift (_fn_result_to_body result (signal_signature_tree sg)) in
  for_each (elements (_get_buses interface)) (fun b =>
    _interface_signal_notify b
      {| n_owner := interface; n_interface := iface_name interface;
         n_member := signal_name sg; n_signature := signal_signature sg;
         n_body := body |}).

(** Calling the function a [signal] decorator returned. *)
Definition signal_wrapped (ws : wrapped_signal) (self : ServiceInterface)
    (args : list pyvalue) : M pyvalue :=
  if signal_disabled (ws_DBUS_SIGNAL ws) then
    raise (SignalDisabledError "Tried to call a disabled signal")
  else
    let* result := call_fn (ws_fn ws) args in
    let* _ := _handle_signal self (ws_DBUS_SIGNAL ws) result in
    ret result.

(** Calling the function a [method] decorator returned: the body calls [fn]
    with the arguments it was given and has no [return]. *)
Definition method_wrapped (wm : wrapped_method) (args : list pyvalue) : M pyvalue :=
  let* _ := call_fn (wm_fn wm) args in
  ret PyNone.

(** ** Specification-side notions *)

(** The notification a signal emission hands to every transport. *)
Definition signal_notification (self : ServiceInterface) (sg : _Signal)
    (body : list pyvalue) : notification :=
  {| n_owner := self; n_interface := iface_name self; n_member := signal_name sg;
     n_signature := signal_signature sg; n_body := body |}.

(** The same notification delivered to each of the transports [bs]. *)
Definition fan_out (bs : list bus) (n : notification) : list (bus * notification) :=
  map (fun b => (b, n)) bs.

(** The ordered sequences among the Python values, with their elements: lists
    and tuples. *)
Definition ordered_sequence (v : pyvalue) : option (list pyvalue) :=
  match v with
  | PyList l | PyTuple l => Some l
  | _ => None
  end.

(** The number of declared OUT arguments of a signal. *)
Definition out_len (sg : _Signal) : nat := length (types (signal_signature_tree sg)).

(** The property descriptors an interface has collected, read from the
    store. *)
Definition properties_of (w : world) (self : ServiceInterface) : list _Property :=
  map (heap w) (__properties self).

(** The last property, in collection order, that goes by the name [k]. *)
Definition property_named (props : list _Property) (k : string) : option _Property :=
  last (List.filter (fun p => String.eqb (prop_name p) k) props).

(** The dictionary the first loop of [emit_properties_changed] builds, as a
    function of the descriptors it reads. *)
Fixpoint variant_dict_of (props : list _Property) (changed_properties : gmap string pyvalue)
    (variant_dict : gmap string pyvalue) : gmap string pyvalue :=
  match props with
  | [] => variant_dict
  | prop :: rest =>
      match changed_properties !! prop_name prop with
      | Some v =>
          variant_dict_of rest changed_properties
            (<[prop_name prop := PyVariant (prop_signature prop) v]> variant_dict)
      | None => variant_dict_of rest changed_properties variant_dict
      end
  end.

(** The notification [emit_properties_changed] hands to every transport. *)
Definition properties_changed_notification (self : ServiceInterface)
    (variant_dict : gmap string pyvalue) (invalidated_properties : pyvalue) : notification :=
  {| n_owner := self; n_interface := "org.freedesktop.DBus.Properties";
     n_member := "PropertiesChanged"; n_signature := "sa{sv}as";
     n_body := [PyStr (iface_name self); PyDict variant_dict; invalidated_properties] |}.

Definition enabled (p : _Property) : bool := negb (prop_disabled p).

(** [Variant] accepts, for every property among [props] whose name is a key
    of [changed], the value supplied under that name. *)
Definition values_accepted `{Collaborators} (props : list _Property)
    (changed : gmap string pyvalue) : Prop :=
  forall p v, p ∈ props -> changed !! prop_name p = Some v ->
              Variant_check (prop_signature p) v = Returns tt.

(** The enabled methods and signals of an interface, as [introspect] lists
    them. *)
Definition enabled_methods (self : ServiceInterface) : list intr.Method :=
  map method_introspection (List.filter (fun m => negb (method_disabled m)) (__methods self)).

Definition enabled_signals (self : ServiceInterface) : list intr.Signal :=
  map signal_introspection (List.filter (fun s => negb (signal_disabled s)) (__signals self)).

(** A property that may be written but has no setter. *)
Definition lacks_setter (p : _Property) : bool :=
  writable (prop_access p) && is_None (prop_setter p).


(** [p.prop_getter is g] *)
Definition has_getter (g : pyfn) (p : _Property) : bool := fn_is (prop_getter p) g.

(** The descriptor at [r] after the merge loop has run for member [m] over
    the collected properties [props]. *)
Definition merged (w : world) (m : objref) (props : list objref) (r : objref) : _Property :=
  if existsb (Nat.eqb r) props && fn_is (prop_getter (heap w r)) (prop_getter (heap w m))
  then match prop_setter (heap w m) with
       | Some s => with_setter (heap w r) (Some s)
       | None => heap w r
       end
  else heap w r.

(** In the store of [w], the descriptor at [r], if it is one for the getter
    [g], is the getter-only descriptor [p] or [p] with the setter [s]. *)
Definition declared (g s : pyfn) (p : _Property) (w : world) (r : objref) : Prop :=
  has_getter g (heap w r) = true -> heap w r = p \/ heap w r = with_setter p (Some s).

(** ** Concrete instances used in the examples *)

(** The D-Bus naming rules the introspection classes enforce: a member name
    is a letter or underscore followed by letters, digits and underscores, at
    most 255 characters; an interface name is two or more such elements
    joined by dots. *)
Definition is_name_start (c : Ascii.ascii) : bool :=
  let n := Ascii.nat_of_ascii c in
  (Nat.leb 65 n && Nat.leb n 90) || (Nat.leb 97 n && Nat.leb n 122) || Nat.eqb n 95.

Definition is_name_char (c : Ascii.ascii) : bool :=
  let n := Ascii.nat_of_ascii c in
  is_name_start c || (Nat.leb 48 n && Nat.leb n 57).

Definition valid_element (s : string) : bool :=
  match s with
  | EmptyString => false
  | String c rest => is_name_start c && forallb is_name_char (list_ascii_of_string rest)
  end.

Definition valid_member_name (s : string) : bool :=
  valid_element s && Nat.leb (String.length s) 255.

(** The elements of a dotted name; [cur] is the element being read, in
    reverse. *)
Fixpoint dotted_elements (s : list Ascii.ascii) (cur : list Ascii.ascii) : list string :=
  match s with
  | [] => [string_of_list_ascii (rev cur)]
  | c :: rest =>
      if Nat.eqb (Ascii.nat_of_ascii c) 46
      then string_of_list_ascii (rev cur) :: dotted_elements rest []
      else dotted_elements rest (c :: cur)
  end.

Definition valid_interface_name (s : string) : bool :=
  let elements := dotted_elements (list_ascii_of_string s) [] in
  Nat.leb 2 (length elements) && forallb valid_element elements
  && Nat.leb (String.length s) 255.

(** The complete types of a signature made of one-letter types. *)
Definition basic_types (s : string) : list string :=
  map (fun c => String c EmptyString) (list_ascii_of_string s).

(** Whether a value fits a basic type: strings for [s], booleans for [b],
    integers within the range of the integer types. *)
Definition fits_basic_type (signature : string) (value : pyvalue) : bool :=
  let within lo hi := match value with
                      | PyInt z => Z.leb lo z && Z.leb z hi
                      | _ => false
                      end in
  if String.eqb signature "s" then match value with PyStr _ => true | _ => false end
  else if String.eqb signature "b" then match value with PyBool _ => true | _ => false end
  else if String.eqb signature "y" then within 0%Z 255%Z
  else if String.eqb signature "n" then within (-32768)%Z 32767%Z
  else if String.eqb signature "q" then within 0%Z 65535%Z
  else if String.eqb signature "i" then within (-2147483648)%Z 2147483647%Z
  else if String.eqb signature "u" then within 0%Z 4294967295%Z
  else if String.eqb signature "x" then within (-9223372036854775808)%Z 9223372036854775807%Z
  else if String.eqb signature "t" then within 0%Z 18446744073709551615%Z
  else false.

Definition check (ok : bool) (e : exn) : outcome unit :=
  if ok then Returns tt else Raises e.

(** Modelled from the spec: collaborators for signatures made of basic
    one-letter types only, where every character is one complete type.  An
    argument or property must have a single complete type, members and
    interfaces must have valid names, and a tagged value must fit its type. *)
Definition basic_collaborators : Collaborators :=
  {| SignatureTree := fun s => Returns {| types := basic_types s |};
     Arg_check := fun signature _ _ =>
       check (Nat.eqb (length (basic_types signature)) 1)
         (InvalidIntrospectionError "an argument must have a single complete type");
     Method_check := fun name _ _ =>
       check (valid_member_name name) (InvalidMemberNameError name);
     Signal_check := fun name _ =>
       check (valid_member_name name) (InvalidMemberNameError name);
     Property_check := fun name signature _ =>
       let? _ := check (valid_member_name name) (InvalidMemberNameError name) in
       check (Nat.eqb (length (basic_types signature)) 1)
         (InvalidIntrospectionError "the property must have a single complete type");
     Interface_check := fun name _ _ _ =>
       check (valid_interface_name name) (InvalidInterfaceNameError name);
     Variant_check := fun signature value =>
       check (fits_basic_type signature value)
         (SignatureBodyMismatchError "the value does not fit the signature") |}.

Definition self_param : param := {| param_name := "self"; param_annotation := None |}.

(** [def string_signal(self) -> 's': return None] *)
Definition silent_fn : pyfn :=
  {| fn_id := 10; fn_name := "string_signal"; fn_parameters := [self_param];
     fn_return_annotation := Some "s"; fn_body := fun _ => Returns PyNone |}.

(** [def two_strings_signal(self, val1, val2) -> 'ss': return [val1, val2]] *)
Definition two_strings_fn : pyfn :=
  {| fn_id := 11; fn_name := "two_strings_signal";
     fn_parameters := [self_param; {| param_name := "val1"; param_annotation := None |};
                       {| param_name := "val2"; param_annotation := None |}];
     fn_return_annotation := Some "ss"; fn_body := fun args => Returns (PyList args) |}.

(** [def pair_signal(self, val1, val2) -> 'ss': return val1, val2] *)
Definition pair_fn : pyfn :=
  {| fn_id := 14; fn_name := "pair_signal";
     fn_parameters := [self_param; {| param_name := "val1"; param_annotation := None |};
                       {| param_name := "val2"; param_annotation := None |}];
     fn_return_annotation := Some "ss"; fn_body := fun args => Returns (PyTuple args) |}.

(** [def plain_signal(self, val): return val] *)
Definition plain_fn : pyfn :=
  {| fn_id := 12; fn_name := "plain_signal";
     fn_parameters := [self_param; {| param_name := "val"; param_annotation := None |}];
     fn_return_annotation := None;
     fn_body := fun args => Returns (match args with v :: _ => v | [] => PyNone end) |}.

(** [def echo(self, val: 's') -> 's': return val] *)
Definition echo_fn : pyfn :=
  {| fn_id := 13; fn_name := "echo";
     fn_parameters := [self_param; {| param_name := "val"; param_annotation := Some "s" |}];
     fn_return_annotation := Some "s";
     fn_body := fun args => Returns (match args with v :: _ => v | [] => PyNone end) |}.

(** What [signal()] makes of [silent_fn], [two_strings_fn] and [plain_fn]. *)
Definition out_arg (type_ : string) : intr.Arg := intr.mkArg type_ intr.OUT None.

Definition string_signal : wrapped_signal :=
  {| ws_fn := silent_fn;
     ws_DBUS_SIGNAL :=
       {| signal_signature := "s"; signal_signature_tree := {| types := ["s"] |};
          signal_name := "string_signal"; signal_disabled := false;
          signal_introspection := intr.mkSignal "string_signal" [out_arg "s"] |} |}.

Definition two_strings_signal : wrapped_signal :=
  {| ws_fn := two_strings_fn;
     ws_DBUS_SIGNAL :=
       {| signal_signature := "ss"; signal_signature_tree := {| types := ["s"; "s"] |};
          signal_name := "two_strings_signal"; signal_disabled := false;
          signal_introspection :=
            intr.mkSignal "two_strings_signal" [out_arg "s"; out_arg "s"] |} |}.

Definition pair_signal : wrapped_signal :=
  {| ws_fn := pair_fn;
     ws_DBUS_SIGNAL :=
       {| signal_signature := "ss"; signal_signature_tree := {| types := ["s"; "s"] |};
          signal_name := "pair_signal"; signal_disabled := false;
          signal_introspection := intr.mkSignal "pair_signal" [out_arg "s"; out_arg "s"] |} |}.

Definition plain_signal (disabled : bool) : wrapped_signal :=
  {| ws_fn := plain_fn;
     ws_DBUS_SIGNAL :=
       {| signal_signature := EmptyString; signal_signature_tree := {| types := [] |};
          signal_name := "plain_signal"; signal_disabled := disabled;
          signal_introspection := intr.mkSignal "plain_signal" [] |} |}.

Definition empty_interface (name : string) : ServiceInterface :=
  {| iface_name := name; __methods := []; __properties := []; __signals := [];
     __buses := ∅ |}.

(** An interface with transports 1 and 2 attached, in that order. *)
Definition two_bus_interface : ServiceInterface :=
  _add_bus (_add_bus (empty_interface "com.example.Iface") 1) 2.

(** A property nobody declared, for the references the examples do not use,
    and a world in which nothing has happened yet. *)
Definition placeholder_fn : pyfn :=
  {| fn_id := 0; fn_name := "placeholder"; fn_parameters := [self_param];
     fn_return_annotation := Some "s"; fn_body := fun _ => Returns PyNone |}.

Definition placeholder_property : _Property :=
  with_options {| base_getter := placeholder_fn; base_setter := None;
                 base_signature := "s"; base_type := "s" |} no_options no_options.

Definition quiet_world (h : objref -> _Property) : world :=
  {| heap := h; calls := []; sent := [] |}.

Definition empty_world : world := quiet_world (fun _ => placeholder_property).

(** [def string_prop(self) -> 's'] and the setter declared for it. *)
Definition string_prop_getter : pyfn :=
  {| fn_id := 20; fn_name := "string_prop"; fn_parameters := [self_param];
     fn_return_annotation := Some "s"; fn_body := fun _ => Returns (PyStr "value") |}.

Definition string_prop_setter : pyfn :=
  {| fn_id := 21; fn_name := "string_prop";
     fn_parameters := [self_param; {| param_name := "val"; param_annotation := Some "s" |}];
     fn_return_annotation := None; fn_body := fun _ => Returns PyNone |}.

(** What [dbus_property(access, name, disabled)] makes of the getter, and what
    [.setter] then makes of that. *)
Definition getter_only (access : PropertyAccess) (name : option string) (disabled : bool)
  : _Property :=
  with_options {| base_getter := string_prop_getter; base_setter := None;
                 base_signature := "s"; base_type := "s" |}
    no_options
    {| opt_name := Some name; opt_access := Some access; opt_disabled := Some disabled |}.

Definition bound (access : PropertyAccess) (name : option string) (disabled : bool)
  : _Property :=
  with_setter (getter_only access name disabled) (Some string_prop_setter).

(** A store holding the given descriptors at references 0, 1, 2, ... *)
Definition store_of (l : list _Property) : objref -> _Property :=
  fun r => nth r l placeholder_property.

(** An interface with one disabled property and transports 1 and 2. *)
Definition hidden_prop_interface : ServiceInterface :=
  with_properties two_bus_interface [0].

Definition hidden_prop_world : world := quiet_world (store_of [bound READWRITE None true]).

(** A class with the getter-only descriptor under one name and the bound
    descriptor under another, and a class with the bound descriptor only. *)
Definition split_members : list (string * member) :=
  [("__init__", MemberOther None); ("string_prop", MemberProperty 0);
   ("string_prop_setter", MemberProperty 1)].

Definition split_world (access : PropertyAccess) : world :=
  quiet_world (store_of [getter_only access None false; bound access None false]).

(** A class whose writable property never got a setter. *)
Definition unset_members : list (string * member) :=
  [("__init__", MemberOther None); ("string_prop", MemberProperty 0)].

Definition unset_world : world := quiet_world (store_of [getter_only READWRITE None false]).

(** ** Notions used by the further properties *)

(** The IN argument [_Method.__init__] makes of an annotated parameter. *)
Definition in_arg_of (p : param) : intr.Arg :=
  intr.mkArg (default EmptyString (param_annotation p)) intr.IN (Some (param_name p)).


(** The annotations of the parameters, concatenated in order. *)
Fixpoint joined_annotations (ps : list param) : string :=
  match ps with
  | [] => EmptyString
  | p :: rest => default EmptyString (param_annotation p) ++ joined_annotations rest
  end.

(** The identity of the getter of the descriptor at [r]. *)
Definition getter_id (w : world) (r : objref) : nat := fn_id (prop_getter (heap w r)).

(** The descriptors of the decorated methods and signals among the members,
    in enumeration order. *)
Fixpoint method_members (members : list (string * member)) : list _Method :=
  match members with
  | [] => []
  | (_, MemberMethod m) :: rest => wm_DBUS_METHOD m :: method_members rest
  | _ :: rest => method_members rest
  end.

Fixpoint signal_members (members : list (string * member)) : list _Signal :=
  match members with
  | [] => []
  | (_, MemberSignal s) :: rest => ws_DBUS_SIGNAL s :: signal_members rest
  | _ :: rest => signal_members rest
  end.

(** The references of the property descriptors among the members. *)
Fixpoint property_members (members : list (string * member)) : list objref :=
  match members with
  | [] => []
  | (_, MemberProperty r) :: rest => r :: property_members rest
  | _ :: rest => property_members rest
  end.



Definition add_fn : pyfn :=
  {| fn_id := 31; fn_name := "add";
     fn_parameters := [self_param; {| param_name := "a"; param_annotation := Some "u" |};
                       {| param_name := "b"; param_annotation := Some "u" |}];
     fn_return_annotation := Some "u"; fn_body := fun _ => Returns (PyInt 0) |}.

(** [y] is [x] except possibly for its setter, and has a setter if [x] has
    one. *)
Definition kept_but_setter (x y : _Property) : Prop :=
  prop_getter y = prop_getter x /\ prop_signature y = prop_signature x
  /\ prop_type y = prop_type x /\ prop_options y = prop_options x
  /\ prop_name y = prop_name x /\ prop_access y = prop_access x
  /\ prop_disabled y = prop_disabled x
  /\ prop_introspection y = prop_introspection x
  /\ (prop_setter x <> None -> prop_setter y <> None).

(** What [method()] makes of [echo_fn]. *)
Definition echo_method : wrapped_method :=
  {| wm_fn := echo_fn;
     wm_DBUS_METHOD :=
       {| method_name := "echo"; method_fn := echo_fn; method_disabled := false;
          method_introspection :=
            intr.mkMethod "echo" [intr.mkArg "s" intr.IN (Some "val")] [out_arg "s"];
          in_signature := "s"; out_signature := "s";
          in_signature_tree := {| types := ["s"] |};
          out_signature_tree := {| types := ["s"] |} |} |}.

(** A class with a method, two signals (one disabled) and a property declared
    with its setter. *)
Definition mixed_members : list (string * member) :=
  [("__init__", MemberOther None); ("echo", MemberMethod echo_method);
   ("plain_signal", MemberSignal (plain_signal true));
   ("string_prop", MemberProperty 1); ("string_signal", MemberSignal string_signal)].






(** * Theorems *)

(** ** The decorators on the concrete functions *)

Example signal_silent_fn : @signal basic_collaborators None false silent_fn = Returns string_signal.
Proof. reflexivity. Qed.

Example signal_two_strings_fn :
  @signal basic_collaborators None false two_strings_fn = Returns two_strings_signal.
Proof. reflexivity. Qed.

Example signal_pair_fn : @signal basic_collaborators None false pair_fn = Returns pair_signal.
Proof. reflexivity. Qed.

Example signal_plain_fn (disabled : bool) :
  @signal basic_collaborators None disabled plain_fn = Returns (plain_signal disabled).
Proof. reflexivity. Qed.

(** ** Dispatch *)

Lemma record_sent_nil (w : world) : record_sent [] w = w.
Proof. destruct w as [h c s]. unfold record_sent. simpl. by rewrite app_nil_r. Qed.

Lemma record_sent_app (l1 l2 : list (bus * notification)) (w : world) :
  record_sent l2 (record_sent l1 w) = record_sent (l1 ++ l2) w.
Proof. unfold record_sent. simpl. by rewrite app_assoc. Qed.

(** A loop that only notifies delivers one notification per element, in the
    order of the list, and cannot fail. *)
Lemma for_each_notify (bs : list bus) (n : bus -> notification) (w : world) :
  for_each bs (fun b => _interface_signal_notify b (n b)) w
  = (Returns tt, record_sent (map (fun b => (b, n b)) bs) w).
Proof.
  revert w. induction bs as [|b bs IH]; intros w; simpl.
  - by rewrite record_sent_nil.
  - unfold bind, _interface_signal_notify at 1. rewrite IH.
    by rewrite record_sent_app.
Qed.

Lemma _handle_signal_returns self sg result body w :
  _fn_result_to_body result (signal_signature_tree sg) = Returns body ->
  _handle_signal self sg result w
  = (Returns tt,
     record_sent (fan_out (elements (__buses self)) (signal_notification self sg body)) w).
Proof.
  intros Hbody. unfold _handle_signal, bind, lift. rewrite Hbody. simpl.
  apply for_each_notify.
Qed.

Lemma _handle_signal_raises self sg result e w :
  _fn_result_to_body result (signal_signature_tree sg) = Raises e ->
  _handle_signal self sg result w = (Raises e, w).
Proof. intros Hbody. unfold _handle_signal, bind, lift. by rewrite Hbody. Qed.

(** An enabled signal whose function returns [result]: the call is recorded,
    then the outcome is that of the body conversion. *)
Lemma signal_wrapped_returns ws self args result body w :
  signal_disabled (ws_DBUS_SIGNAL ws) = false ->
  fn_body (ws_fn ws) args = Returns result ->
  _fn_result_to_body result (signal_signature_tree (ws_DBUS_SIGNAL ws)) = Returns body ->
  signal_wrapped ws self args w
  = (Returns result,
     record_sent (fan_out (elements (__buses self))
                    (signal_notification self (ws_DBUS_SIGNAL ws) body))
       (record_call (ws_fn ws) args w)).
Proof.
  intros Hen Hfn Hbody. unfold signal_wrapped. rewrite Hen.
  unfold bind at 1. unfold call_fn. rewrite Hfn.
  unfold bind. by rewrite (_handle_signal_returns _ _ _ body).
Qed.

Lemma signal_wrapped_raises ws self args result e w :
  signal_disabled (ws_DBUS_SIGNAL ws) = false ->
  fn_body (ws_fn ws) args = Returns result ->
  _fn_result_to_body result (signal_signature_tree (ws_DBUS_SIGNAL ws)) = Raises e ->
  signal_wrapped ws self args w = (Raises e, record_call (ws_fn ws) args w).
Proof.
  intros Hen Hfn Hbody. unfold signal_wrapped. rewrite Hen.
  unfold bind at 1. unfold call_fn. rewrite Hfn.
  unfold bind. by rewrite (_handle_signal_raises _ _ _ e).
Qed.

(** The four cases of the body conversion. *)
Lemma _fn_result_to_body_None tree : _fn_result_to_body PyNone tree = Returns [].
Proof. reflexivity. Qed.

Lemma _fn_result_to_body_zero result tree :
  result <> PyNone -> length (types tree) = 0 ->
  _fn_result_to_body result tree
  = Raises (SignatureBodyMismatchError "Function was not expected to return an argument").
Proof.
  intros Hr Hn. unfold _fn_result_to_body. rewrite Hn.
  destruct result; try reflexivity. by destruct Hr.
Qed.

Lemma _fn_result_to_body_one result tree :
  result <> PyNone -> length (types tree) = 1 ->
  _fn_result_to_body result tree = Returns [result].
Proof.
  intros Hr Hn. unfold _fn_result_to_body. rewrite Hn.
  destruct result; try reflexivity. by destruct Hr.
Qed.

Lemma _fn_result_to_body_list l tree :
  1 < length (types tree) -> _fn_result_to_body (PyList l) tree = Returns l.
Proof.
  intros Hn. unfold _fn_result_to_body.
  destruct (length (types tree)) as [|[|n]]; try lia. reflexivity.
Qed.

Lemma _fn_result_to_body_not_list result tree :
  result <> PyNone -> (forall l, result <> PyList l) -> 1 < length (types tree) ->
  _fn_result_to_body result tree
  = Raises (SignatureBodyMismatchError "Expected function to return a list of arguments").
Proof.
  intros Hr Hl Hn. unfold _fn_result_to_body.
  destruct (length (types tree)) as [|[|n]]; try lia. simpl.
  destruct result; try reflexivity.
  - by destruct Hr.
  - by destruct (Hl l).
Qed.

(** A tuple is not a [list]: with several OUT arguments it is rejected. *)
Example _fn_result_to_body_tuple :
  _fn_result_to_body (PyTuple [PyStr "a"; PyStr "b"]) {| types := ["s"; "s"] |}
  = Raises (SignatureBodyMismatchError "Expected function to return a list of arguments").
Proof. reflexivity. Qed.

(** ** Claims about signal and method invocation *)

(** C1 (as stated, refuted).  Signal [string_signal] declares one OUT argument
    and its function returns [None]; with transports 1 and 2 attached the
    invocation does not fail: it returns [None] and both transports receive a
    notification whose body is empty. *)
Lemma C1_none_result_not_rejected :
  let run := signal_wrapped string_signal two_bus_interface [] empty_world in
  0 < out_len (ws_DBUS_SIGNAL string_signal)
  /\ fn_body (ws_fn string_signal) [] = Returns PyNone
  /\ fst run = Returns PyNone
  /\ map (fun bn => (fst bn, n_body (snd bn))) (sent (snd run)) = [(2, []); (1, [])]
  /\ ~ (exists msg, fst run = Raises (SignatureBodyMismatchError msg)
                    /\ sent (snd run) = sent empty_world).
Proof.
  vm_compute. repeat split; try reflexivity; try lia.
  intros [msg [Hraises _]]. discriminate Hraises.
Qed.

(** C1 (amended).  For every enabled signal with at least one declared OUT
    argument whose function returns [None], the invocation raises nothing: it
    returns [None], and every attached transport receives one notification
    carrying the interface name, the member name, the signature and the empty
    body. *)
Theorem C1_none_result_sends_empty_body ws self args w :
  signal_disabled (ws_DBUS_SIGNAL ws) = false ->
  0 < out_len (ws_DBUS_SIGNAL ws) ->
  fn_body (ws_fn ws) args = Returns PyNone ->
  signal_wrapped ws self args w
  = (Returns PyNone,
     record_sent (fan_out (elements (__buses self))
                    (signal_notification self (ws_DBUS_SIGNAL ws) []))
       (record_call (ws_fn ws) args w)).
Proof.
  intros Hen _ Hfn. by apply signal_wrapped_returns.
Qed.

Lemma C1_none_result_sends_empty_body_witness :
  signal_wrapped string_signal two_bus_interface [] empty_world
  = (Returns PyNone,
     record_sent (fan_out (elements (__buses two_bus_interface))
                    (signal_notification two_bus_interface (ws_DBUS_SIGNAL string_signal) []))
       (record_call (ws_fn string_signal) [] empty_world)).
Proof.
  apply (C1_none_result_sends_empty_body string_signal two_bus_interface [] empty_world).
  - reflexivity.
  - vm_compute. lia.
  - reflexivity.
Defined.

(** C2 (as stated, refuted).  Signal [pair_signal] declares two OUT arguments
    and its function returns the tuple of its two arguments, an ordered
    sequence; the body is not that sequence: the invocation raises the
    body-mismatch error and no transport is notified. *)
Lemma C2_tuple_result_rejected :
  let r := PyTuple [PyStr "a"; PyStr "b"] in
  let run := signal_wrapped pair_signal two_bus_interface [PyStr "a"; PyStr "b"]
               empty_world in
  1 < out_len (ws_DBUS_SIGNAL pair_signal)
  /\ fn_body (ws_fn pair_signal) [PyStr "a"; PyStr "b"] = Returns r
  /\ ordered_sequence r = Some [PyStr "a"; PyStr "b"]
  /\ fst run = Raises (SignatureBodyMismatchError
                         "Expected function to return a list of arguments")
  /\ sent (snd run) = []
  /\ ~ (exists w', run = (Returns r, w')).
Proof.
  vm_compute. repeat split; try reflexivity; try lia.
  intros [w' Hrun]. discriminate Hrun.
Qed.

(** C2 (amended).  An enabled signal whose function returns a value [r] other
    than [None]: with exactly one declared OUT argument the body is [[r]],
    whatever [r] is; with more than one, the body is [r] itself when [r] is a
    list, and otherwise (also when [r] is a tuple) the invocation raises the
    body-mismatch error and no transport is notified. *)
Theorem C2_present_result_body ws self args r w :
  signal_disabled (ws_DBUS_SIGNAL ws) = false ->
  fn_body (ws_fn ws) args = Returns r ->
  r <> PyNone ->
  let sg := ws_DBUS_SIGNAL ws in
  let run := signal_wrapped ws self args w in
  let delivered body :=
    record_sent (fan_out (elements (__buses self)) (signal_notification self sg body))
      (record_call (ws_fn ws) args w) in
  (out_len sg = 1 -> run = (Returns r, delivered [r]))
  /\ (1 < out_len sg -> forall l, r = PyList l -> run = (Returns r, delivered l))
  /\ (1 < out_len sg -> (forall l, r <> PyList l) ->
      run = (Raises (SignatureBodyMismatchError
                       "Expected function to return a list of arguments"),
             record_call (ws_fn ws) args w)
      /\ sent (snd run) = sent w).
Proof.
  intros Hen Hfn Hr sg run delivered. subst run delivered. split; [|split].
  - intros Hn. apply signal_wrapped_returns; try done.
    by apply _fn_result_to_body_one.
  - intros Hn l ->. apply signal_wrapped_returns; try done.
    by apply _fn_result_to_body_list.
  - intros Hn Hl.
    assert (Hrun : signal_wrapped ws self args w
      = (Raises (SignatureBodyMismatchError
                   "Expected function to return a list of arguments"),
         record_call (ws_fn ws) args w)).
    { apply (signal_wrapped_raises _ _ _ r); try done.
      by apply _fn_result_to_body_not_list. }
    by rewrite Hrun.
Qed.

Lemma C2_present_result_body_witness :
  let args := [PyStr "a"; PyStr "b"] in
  signal_wrapped two_strings_signal two_bus_interface args empty_world
  = (Returns (PyList args),
     record_sent (fan_out (elements (__buses two_bus_interface))
                    (signal_notification two_bus_interface
                       (ws_DBUS_SIGNAL two_strings_signal) args))
       (record_call (ws_fn two_strings_signal) args empty_world)).
Proof.
  intros args.
  destruct (C2_present_result_body two_strings_signal two_bus_interface args
              (PyList args) empty_world) as [_ [Hlist _]].
  - reflexivity.
  - reflexivity.
  - discriminate.
  - apply (Hlist ltac:(vm_compute; lia) args eq_refl).
Defined.

(** C6.  Invoking a disabled signal raises [SignalDisabledError] and leaves
    the world as it was: the underlying callable is not called and no
    transport is notified. *)
Theorem C6_disabled_signal_does_nothing ws self args w :
  signal_disabled (ws_DBUS_SIGNAL ws) = true ->
  signal_wrapped ws self args w
  = (Raises (SignalDisabledError "Tried to call a disabled signal"), w)
  /\ calls (snd (signal_wrapped ws self args w)) = calls w
  /\ sent (snd (signal_wrapped ws self args w)) = sent w.
Proof.
  intros Hdis. unfold signal_wrapped. rewrite Hdis. by repeat split.
Qed.

Lemma C6_disabled_signal_does_nothing_witness :
  signal_wrapped (plain_signal true) two_bus_interface [PyInt 1] empty_world
  = (Raises (SignalDisabledError "Tried to call a disabled signal"), empty_world).
Proof.
  apply (C6_disabled_signal_does_nothing (plain_signal true) two_bus_interface
           [PyInt 1] empty_world).
  reflexivity.
Defined.

(** C8.  An enabled signal with no declared OUT argument whose function
    returns a value other than [None] raises the body-mismatch error saying
    that the function was not expected to return an argument; no transport is
    notified. *)
Theorem C8_unexpected_result_rejected ws self args r w :
  signal_disabled (ws_DBUS_SIGNAL ws) = false ->
  out_len (ws_DBUS_SIGNAL ws) = 0 ->
  fn_body (ws_fn ws) args = Returns r ->
  r <> PyNone ->
  signal_wrapped ws self args w
  = (Raises (SignatureBodyMismatchError "Function was not expected to return an argument"),
     record_call (ws_fn ws) args w)
  /\ sent (snd (signal_wrapped ws self args w)) = sent w.
Proof.
  intros Hen Hn Hfn Hr.
  assert (Hrun : signal_wrapped ws self args w
    = (Raises (SignatureBodyMismatchError
                 "Function was not expected to return an argument"),
       record_call (ws_fn ws) args w)).
  { apply (signal_wrapped_raises _ _ _ r); try done.
    by apply _fn_result_to_body_zero. }
  by rewrite Hrun.
Qed.

Lemma C8_unexpected_result_rejected_witness :
  signal_wrapped (plain_signal false) two_bus_interface [PyInt 1] empty_world
  = (Raises (SignatureBodyMismatchError "Function was not expected to return an argument"),
     record_call plain_fn [PyInt 1] empty_world).
Proof.
  apply (C8_unexpected_result_rejected (plain_signal false) two_bus_interface
           [PyInt 1] (PyInt 1) empty_world).
  - reflexivity.
  - reflexivity.
  - reflexivity.
  - discriminate.
Defined.

(** The constructors of the introspection classes, when they return, return
    the record of their arguments. *)
Lemma intr_Arg_returns `{Collaborators} signature direction name arg :
  intr_Arg signature direction name = Returns arg ->
  arg = intr.mkArg signature direction name.
Proof.
  unfold intr_Arg. destruct (Arg_check signature direction name); simpl; [|discriminate].
  by intros [= <-].
Qed.

Lemma intr_Method_returns `{Collaborators} name in_args out_args m :
  intr_Method name in_args out_args = Returns m -> m = intr.mkMethod name in_args out_args.
Proof.
  unfold intr_Method. destruct (Method_check name in_args out_args); simpl; [|discriminate].
  by intros [= <-].
Qed.

Lemma intr_Signal_returns `{Collaborators} name args sg :
  intr_Signal name args = Returns sg -> sg = intr.mkSignal name args.
Proof.
  unfold intr_Signal. destruct (Signal_check name args); simpl; [|discriminate].
  by intros [= <-].
Qed.

Lemma intr_Property_returns `{Collaborators} name signature access pr :
  intr_Property name signature access = Returns pr ->
  pr = intr.mkProperty name signature access.
Proof.
  unfold intr_Property. destruct (Property_check name signature access); simpl;
    [|discriminate].
  by intros [= <-].
Qed.

Lemma make_out_args_returns `{Collaborators} ts acc l :
  make_out_args ts acc = Returns l ->
  l = (acc ++ map (fun type_ => intr.mkArg type_ intr.OUT None) ts)%list.
Proof.
  revert acc. induction ts as [|t rest IH]; intros acc; simpl.
  - intros [= <-]. by rewrite app_nil_r.
  - destruct (intr_Arg t intr.OUT None) as [arg|e] eqn:Harg; simpl; [|discriminate].
    apply intr_Arg_returns in Harg. subst arg.
    intros Hrest. rewrite (IH _ Hrest). by rewrite <- app_assoc.
Qed.

(** A signal declared without a return annotation gets the tree of the empty
    signature; when the adapter finds no type in it, the signal has no
    declared OUT argument. *)
Lemma signal_without_annotation `{Collaborators} name disabled fn ws tree :
  fn_return_annotation fn = None ->
  SignatureTree EmptyString = Returns tree ->
  types tree = [] ->
  signal name disabled fn = Returns ws ->
  out_len (ws_DBUS_SIGNAL ws) = 0
  /\ intr.signal_args (signal_introspection (ws_DBUS_SIGNAL ws)) = []
  /\ ws_fn ws = fn.
Proof.
  intros Hann Htree Htypes. unfold signal, _Signal_init. rewrite Hann, Htree. simpl.
  destruct (intr_Signal _ _) as [sg|e] eqn:Hsg; simpl; [|discriminate].
  apply intr_Signal_returns in Hsg. subst sg.
  intros [= <-]. unfold out_len. simpl. by rewrite Htypes.
Qed.

(** The wrapper a [method] decorator returns closes over the decorated
    function. *)
Lemma method_wraps `{Collaborators} name disabled fn wm :
  method name disabled fn = Returns wm ->
  wm_fn wm = fn /\ method_fn (wm_DBUS_METHOD wm) = fn.
Proof.
  unfold method. destruct (_Method_init fn (member_name_or name fn) disabled) as [m|e] eqn:Hm;
    simpl; [|discriminate].
  intros [= <-]. split; [reflexivity|]. simpl.
  unfold _Method_init in Hm.
  destruct (method_in_args _ _ _); simpl in Hm; [|discriminate].
  destruct (match fn_return_annotation fn with Some _ => _ | None => _ end);
    simpl in Hm; [|discriminate].
  destruct (intr_Method _ _ _); simpl in Hm; [|discriminate].
  destruct (SignatureTree _); simpl in Hm; [|discriminate].
  destruct (SignatureTree _); simpl in Hm; [|discriminate].
  by injection Hm as <-.
Qed.

(** C9.  Calling the wrapper of a method-decorated function calls the
    function with the same arguments and returns [None], whatever value the
    function returned. *)
Theorem C9_method_wrapper_returns_None `{Collaborators} name disabled fn wm args v w :
  method name disabled fn = Returns wm ->
  fn_body fn args = Returns v ->
  method_wrapped wm args w = (Returns PyNone, record_call fn args w).
Proof.
  intros Hdec Hfn. destruct (method_wraps _ _ _ _ Hdec) as [Hwm _].
  unfold method_wrapped, bind, call_fn. rewrite Hwm, Hfn. reflexivity.
Qed.

Lemma C9_method_wrapper_returns_None_witness :
  exists wm,
    @method basic_collaborators None false echo_fn = Returns wm
    /\ fn_body echo_fn [PyStr "hi"] = Returns (PyStr "hi")
    /\ method_wrapped wm [PyStr "hi"] empty_world
       = (Returns PyNone, record_call echo_fn [PyStr "hi"] empty_world).
Proof.
  eexists. split; [reflexivity|]. split; [reflexivity|].
  apply (@C9_method_wrapper_returns_None basic_collaborators None false echo_fn _
           [PyStr "hi"] (PyStr "hi") empty_world); reflexivity.
Defined.

(** ** Fan-out to the attached transports *)

Lemma elements_two_buses (iface : ServiceInterface) (b1 b2 : bus) :
  __buses iface = ∅ -> b1 <> b2 ->
  elements (__buses (_add_bus (_add_bus iface b1) b2)) ≡ₚ [b1; b2].
Proof.
  intros Hempty Hne. unfold _add_bus. simpl. rewrite Hempty.
  assert (Hfresh : b2 ∉ ({[b1]} ∪ ∅ : gset nat)).
  { rewrite elem_of_union, elem_of_singleton. intros [Heq|Hin]; [congruence|].
    by apply not_elem_of_empty in Hin. }
  rewrite (elements_union_singleton _ _ Hfresh).
  rewrite elements_union_singleton by apply not_elem_of_empty.
  rewrite elements_empty. apply Permutation_swap.
Qed.

(** C7 (as stated, refuted).  Transport 1 is attached before transport 2, yet
    the signal reaches transport 2 first: the transports are kept in a set,
    which is enumerated in an order of its own. *)
Lemma C7_attachment_order_not_kept :
  let args := [PyStr "a"; PyStr "b"] in
  let run := signal_wrapped two_strings_signal
               (_add_bus (_add_bus (empty_interface "com.example.Iface") 1) 2)
               args empty_world in
  fst run = Returns (PyList args)
  /\ map fst (sent (snd run)) = [2; 1]
  /\ map fst (sent (snd run)) <> [1; 2].
Proof. vm_compute. repeat split. discriminate. Qed.

(** C7 (amended).  After two distinct transports are attached to an interface
    that had none, emitting a signal delivers one notification to each of
    them, both carrying the same interface name, member name, signature and
    body; the order of delivery is that of the set of transports, not the
    order of attachment. *)
Theorem C7_both_transports_notified ws iface b1 b2 args r body w :
  __buses iface = ∅ ->
  b1 <> b2 ->
  signal_disabled (ws_DBUS_SIGNAL ws) = false ->
  fn_body (ws_fn ws) args = Returns r ->
  _fn_result_to_body r (signal_signature_tree (ws_DBUS_SIGNAL ws)) = Returns body ->
  let self := _add_bus (_add_bus iface b1) b2 in
  let n := signal_notification self (ws_DBUS_SIGNAL ws) body in
  exists delivered,
    signal_wrapped ws self args w
    = (Returns r, record_sent delivered (record_call (ws_fn ws) args w))
    /\ delivered ≡ₚ [(b1, n); (b2, n)].
Proof.
  intros Hempty Hne Hen Hfn Hbody self n.
  exists (fan_out (elements (__buses self)) n). split.
  - by apply signal_wrapped_returns.
  - unfold fan_out. subst self.
    rewrite (elements_two_buses iface b1 b2 Hempty Hne). reflexivity.
Qed.

Lemma C7_both_transports_notified_witness :
  let args := [PyStr "a"; PyStr "b"] in
  let n := signal_notification two_bus_interface (ws_DBUS_SIGNAL two_strings_signal) args in
  exists delivered,
    signal_wrapped two_strings_signal two_bus_interface args empty_world
    = (Returns (PyList args),
       record_sent delivered (record_call two_strings_fn args empty_world))
    /\ delivered ≡ₚ [(1, n); (2, n)].
Proof.
  intros args n.
  apply (C7_both_transports_notified two_strings_signal
           (empty_interface "com.example.Iface") 1 2 args (PyList args) args empty_world).
  - reflexivity.
  - discriminate.
  - reflexivity.
  - reflexivity.
  - reflexivity.
Defined.

(** ** Property-change notification and introspection *)

(** The first loop never changes the world. *)
Lemma build_variant_dict_world `{Collaborators} props changed acc w :
  snd (build_variant_dict props changed acc w) = w.
Proof.
  revert acc. induction props as [|r rest IH]; intros acc; simpl; [reflexivity|].
  unfold bind at 1, deref at 1. simpl.
  destruct (changed !! prop_name (heap w r)) as [v|]; [|apply IH].
  unfold bind, lift. destruct (Variant (prop_signature (heap w r)) v); [apply IH | reflexivity].
Qed.

(** When [Variant] accepts every value it is given, the loop returns the
    dictionary of the tagged values. *)
Lemma build_variant_dict_run `{Collaborators} props changed acc w :
  values_accepted (map (heap w) props) changed ->
  build_variant_dict props changed acc w
  = (Returns (variant_dict_of (map (heap w) props) changed acc), w).
Proof.
  revert acc. induction props as [|r rest IH]; intros acc Hok; simpl; [reflexivity|].
  assert (Hrest : values_accepted (map (heap w) rest) changed).
  { intros p v Hp. apply Hok. simpl. by apply list_elem_of_further. }
  unfold bind at 1, deref at 1. simpl.
  destruct (changed !! prop_name (heap w r)) as [v|] eqn:Hv; [|by apply IH].
  unfold bind, lift, Variant.
  rewrite (Hok (heap w r) v); [|simpl; apply list_elem_of_here | exact Hv].
  simpl. by apply IH.
Qed.


Lemma property_named_cons p props k :
  property_named (p :: props) k
  = match property_named props k with
    | Some q => Some q
    | None => if String.eqb (prop_name p) k then Some p else None
    end.
Proof.
  unfold property_named. simpl. destruct (String.eqb (prop_name p) k); [|by destruct (last _)].
  rewrite last_cons. reflexivity.
Qed.

(** What the built dictionary holds under each key. *)
Lemma variant_dict_of_lookup props changed acc k :
  variant_dict_of props changed acc !! k
  = match changed !! k, property_named props k with
    | Some v, Some p => Some (PyVariant (prop_signature p) v)
    | _, _ => acc !! k
    end.
Proof.
  revert acc. induction props as [|p rest IH]; intros acc.
  - simpl. by destruct (changed !! k).
  - simpl. rewrite property_named_cons.
    destruct (changed !! prop_name p) as [v0|] eqn:Hp; rewrite IH.
    + destruct (changed !! k) as [v|] eqn:Hk.
      * destruct (property_named rest k); [reflexivity|].
        destruct (String.eqb_spec (prop_name p) k) as [Heq|Hne].
        -- subst k. rewrite lookup_insert_eq. congruence.
        -- by rewrite lookup_insert_ne.
      * rewrite lookup_insert_ne; [reflexivity|]. congruence.
    + destruct (changed !! k) as [v|] eqn:Hk; [|reflexivity].
      destruct (property_named rest k); [reflexivity|].
      destruct (String.eqb_spec (prop_name p) k) as [Heq|Hne]; [congruence|reflexivity].
Qed.

Lemma emit_properties_changed_run `{Collaborators} self changed invalidated w :
  values_accepted (properties_of w self) changed ->
  emit_properties_changed self changed invalidated w
  = (Returns tt,
     record_sent
       (fan_out (elements (__buses self))
          (properties_changed_notification self
             (variant_dict_of (properties_of w self) changed ∅) invalidated)) w).
Proof.
  intros Hok.
  unfold emit_properties_changed, bind, _get_properties. rewrite build_variant_dict_run by done.
  apply (for_each_notify (elements (_get_buses self))
           (fun _ => properties_changed_notification self _ invalidated)).
Qed.


Lemma property_named_Some props k p :
  property_named props k = Some p -> p ∈ props /\ prop_name p = k.
Proof.
  unfold property_named. intros Hlast. apply last_Some_elem_of in Hlast.
  apply list_elem_of_In, filter_In in Hlast. destruct Hlast as [Hin Hname].
  split; [by apply list_elem_of_In | by apply String.eqb_eq].
Qed.

Lemma property_named_None props k p :
  property_named props k = None -> p ∈ props -> prop_name p <> k.
Proof.
  unfold property_named. intros Hlast Hin Hname. apply last_None in Hlast.
  assert (Hf : In p (List.filter (fun p => String.eqb (prop_name p) k) props)).
  { apply filter_In. split; [by apply list_elem_of_In | by apply String.eqb_eq]. }
  rewrite Hlast in Hf. destruct Hf.
Qed.




Lemma introspect_properties_run props w :
  introspect_properties props w
  = (Returns (map prop_introspection (List.filter enabled (map (heap w) props))), w).
Proof.
  induction props as [|r rest IH]; simpl; [reflexivity|].
  unfold bind, deref at 1. simpl. rewrite IH. unfold ret, enabled.
  by destruct (prop_disabled (heap w r)).
Qed.

(** [introspect] reads the store and hands the enabled members to
    [intr.Interface]; it returns or raises as that constructor does, and
    leaves the world as it was. *)
Lemma introspect_run `{Collaborators} self w :
  introspect self w
  = (intr_Interface (iface_name self) (enabled_methods self) (enabled_signals self)
       (map prop_introspection (List.filter enabled (properties_of w self))), w).
Proof.
  unfold introspect, bind, _get_properties. by rewrite introspect_properties_run.
Qed.


(** Leaving a disabled property out of the collection does not change the
    list of enabled ones. *)
Lemma enabled_without_disabled (h : objref -> _Property) props r :
  prop_disabled (h r) = true ->
  List.filter enabled (map h (List.filter (fun r' => negb (Nat.eqb r' r)) props))
  = List.filter enabled (map h props).
Proof.
  intros Hdis. induction props as [|r' rest IH]; simpl; [reflexivity|].
  destruct (Nat.eqb_spec r' r) as [->|Hne]; simpl.
  - unfold enabled at 2. by rewrite Hdis.
  - by rewrite IH.
Qed.

(** C10 (as stated, refuted).  The disabled property [string_prop] has type
    ['s'] and the value supplied for it is the integer 7: [Variant] rejects
    it, the call raises and no body is sent to either transport. *)
Lemma C10_disabled_property_misfit_value :
  let run := @emit_properties_changed basic_collaborators hidden_prop_interface
               {[ "string_prop" := PyInt 7 ]} (PyList []) hidden_prop_world in
  prop_disabled (heap hidden_prop_world 0) = true
  /\ prop_name (heap hidden_prop_world 0) = "string_prop"
  /\ (exists msg, fst run = Raises (SignatureBodyMismatchError msg))
  /\ sent (snd run) = []
  /\ ~ (exists w', run = (Returns tt, w')).
Proof.
  vm_compute. repeat split; try reflexivity.
  - by eexists.
  - intros [w' Hrun]. discriminate Hrun.
Qed.

(** C10 (amended).  A disabled property is not filtered by
    [emit_properties_changed]: when its name is a key of [changed] and
    [Variant] accepts the supplied values, the body sent to every attached
    transport holds under that name the supplied value, tagged with the
    signature of the last property so named, which is the disabled property
    itself when no other property shares its name.  Meanwhile [introspect]
    hands to [intr.Interface] the properties it would hand over without that
    property. *)
Theorem C10_disabled_property_still_emitted `{Collaborators}
    self changed invalidated w r v :
  r ∈ __properties self ->
  prop_disabled (heap w r) = true ->
  changed !! prop_name (heap w r) = Some v ->
  values_accepted (properties_of w self) changed ->
  exists variant_dict q,
    emit_properties_changed self changed invalidated w
    = (Returns tt,
       record_sent
         (fan_out (elements (__buses self))
            (properties_changed_notification self variant_dict invalidated)) w)
    /\ property_named (properties_of w self) (prop_name (heap w r)) = Some q
    /\ variant_dict !! prop_name (heap w r) = Some (PyVariant (prop_signature q) v)
    /\ ((forall r', r' ∈ __properties self ->
                    prop_name (heap w r') = prop_name (heap w r) -> r' = r) ->
        q = heap w r)
    /\ introspect self w
       = (intr_Interface (iface_name self) (enabled_methods self) (enabled_signals self)
            (map prop_introspection
               (List.filter enabled
                  (map (heap w)
                     (List.filter (fun r' => negb (Nat.eqb r' r)) (__properties self))))),
          w).
Proof.
  intros Hin Hdis Hchanged Hok.
  destruct (property_named (properties_of w self) (prop_name (heap w r))) as [q|] eqn:Hq.
  2: { assert (Hp : heap w r ∈ properties_of w self).
       { unfold properties_of. by apply list_elem_of_fmap_2. }
       by destruct (property_named_None _ _ _ Hq Hp). }
  exists (variant_dict_of (properties_of w self) changed ∅), q.
  split; [by apply emit_properties_changed_run|]. split; [reflexivity|]. split.
  { by rewrite variant_dict_of_lookup, Hchanged, Hq. }
  split.
  { intros Hunique. apply property_named_Some in Hq. destruct Hq as [Hq Hname].
    unfold properties_of in Hq. apply list_elem_of_fmap in Hq.
    destruct Hq as [r' [-> Hr']]. by rewrite (Hunique r' Hr' Hname). }
  rewrite introspect_run. unfold properties_of. by rewrite enabled_without_disabled.
Qed.

Lemma C10_disabled_property_still_emitted_witness :
  exists variant_dict view,
    @emit_properties_changed basic_collaborators hidden_prop_interface
      {[ "string_prop" := PyStr "x" ]} (PyList []) hidden_prop_world
    = (Returns tt,
       record_sent
         (fan_out (elements (__buses hidden_prop_interface))
            (properties_changed_notification hidden_prop_interface variant_dict
               (PyList []))) hidden_prop_world)
    /\ variant_dict !! "string_prop" = Some (PyVariant "s" (PyStr "x"))
    /\ @introspect basic_collaborators hidden_prop_interface hidden_prop_world
       = (Returns view, hidden_prop_world)
    /\ intr.properties view = [].
Proof.
  destruct (@C10_disabled_property_still_emitted basic_collaborators hidden_prop_interface
              {[ "string_prop" := PyStr "x" ]} (PyList []) hidden_prop_world 0 (PyStr "x"))
    as (variant_dict & q & Hrun & Hq & Hlookup & _ & Hview).
  - apply list_elem_of_here.
  - reflexivity.
  - reflexivity.
  - intros p v Hp. apply list_elem_of_fmap in Hp. destruct Hp as (r & -> & Hr).
    apply list_elem_of_singleton in Hr. subst r. vm_compute. by intros [= <-].
  - exists variant_dict. eexists. split; [exact Hrun|]. split.
    + vm_compute in Hq. injection Hq as <-. exact Hlookup.
    + rewrite Hview. split; reflexivity.
Defined.

(** ** Registration *)

(** The validation loop reads the store and nothing else: it fails exactly
    when some collected property lacks a setter it needs. *)
Lemma validate_setters_run last_member props w :
  if existsb lacks_setter (map (heap w) props)
  then exists e, validate_setters last_member props w = (Raises e, w)
  else validate_setters last_member props w = (Returns tt, w).
Proof.
  induction props as [|r rest IH]; [reflexivity|].
  assert (Hstep : validate_setters last_member (r :: rest) w
    = if lacks_setter (heap w r)
      then (let* n := member_name_attr last_member in
            raise (ValueError ("property " ++ dquote ++ n ++ dquote
                               ++ " is writable but does not have a setter"))) w
      else validate_setters last_member rest w).
  { simpl. unfold bind at 1, deref at 1, lacks_setter.
    by destruct (writable _ && is_None _). }
  rewrite Hstep. cbn [map existsb].
  destruct (lacks_setter (heap w r)); cbn [orb]; [|exact IH].
  unfold bind.
  destruct last_member as [[r'|m|sg|[n|]]|]; simpl; unfold bind, deref, ret, raise; simpl;
    eexists; reflexivity.
Qed.


(** The merge loop cannot fail. *)
Lemma merge_property_returns m props found w :
  exists found' w', merge_property m props found w = (Returns found', w').
Proof.
  revert found w. induction props as [|r rest IH]; intros found w; simpl.
  - by eexists _, _.
  - unfold bind at 1, deref at 1. simpl. unfold bind at 1, deref at 1. simpl.
    destruct (fn_is _ _); [|apply IH].
    unfold bind at 1. destruct (prop_setter (heap w m)); simpl; apply IH.
Qed.

(** Collecting the members cannot fail either. *)
Lemma collect_members_returns members self w :
  exists collected w1, collect_members members self w = (Returns collected, w1).
Proof.
  revert self w. induction members as [|[nm [r|m|sg|o]] rest IH]; intros self w; simpl.
  - by eexists _, _.
  - unfold bind at 1.
    destruct (merge_property_returns r (__properties self) false w) as (found & w' & ->).
    apply IH.
  - apply IH.
  - apply IH.
  - apply IH.
Qed.

Lemma ServiceInterface__init___run name members w collected w1 :
  collect_members members (empty_interface name) w = (Returns collected, w1) ->
  if existsb lacks_setter (properties_of w1 collected)
  then exists e, ServiceInterface__init__ name members w = (Raises e, w1)
  else ServiceInterface__init__ name members w = (Returns collected, w1).
Proof.
  intros Hcollect.
  assert (Hinit : ServiceInterface__init__ name members w
    = match validate_setters (last (map snd members)) (__properties collected) w1 with
      | (Returns _, w') => (Returns collected, w')
      | (Raises e, w') => (Raises e, w')
      end).
  { unfold ServiceInterface__init__, bind.
    change {| iface_name := name; __methods := []; __properties := [];
              __signals := []; __buses := ∅ |} with (empty_interface name).
    rewrite Hcollect. by destruct (validate_setters _ _ w1) as [[u|e] w']. }
  rewrite Hinit.
  pose proof (validate_setters_run (last (map snd members)) (__properties collected) w1)
    as Hvalidate.
  unfold properties_of. revert Hvalidate.
  destruct (existsb lacks_setter _); intros Hvalidate.
  - destruct Hvalidate as [e ->]. by exists e.
  - by rewrite Hvalidate.
Qed.


(** A READWRITE property without a setter: registration raises.  The member
    the outer loop ended on is the property, so the message carries its
    name. *)
Example registration_without_setter :
  fst (ServiceInterface__init__ "com.example.Iface" unset_members unset_world)
  = Raises (ValueError ("property " ++ dquote ++ "string_prop" ++ dquote
                        ++ " is writable but does not have a setter")).
Proof. reflexivity. Qed.

(** The same property followed by an undecorated member: the message is
    formatted from that last member, which has no [name]. *)
Example registration_without_setter_last_member :
  fst (ServiceInterface__init__ "com.example.Iface"
         (unset_members ++ [("zzz", MemberOther None)]) unset_world)
  = Raises (AttributeError "name").
Proof. reflexivity. Qed.

(** ** Merging getter and setter declarations *)

Lemma fn_is_refl f : fn_is f f = true.
Proof. apply Nat.eqb_refl. Qed.

Lemma fn_is_trans f g h : fn_is f g = true -> fn_is g h = true -> fn_is f h = true.
Proof. unfold fn_is. rewrite !Nat.eqb_eq. congruence. Qed.

Lemma fn_is_sym f g : fn_is f g = fn_is g f.
Proof. apply Nat.eqb_sym. Qed.

Lemma existsb_eqb_In (r : objref) (l : list objref) :
  existsb (Nat.eqb r) l = true <-> In r l.
Proof.
  rewrite existsb_exists. split.
  - intros [x [Hin Heq]]. apply Nat.eqb_eq in Heq. by subst x.
  - intros Hin. exists r. split; [done | apply Nat.eqb_refl].
Qed.

(** The merge loop: it reports whether a collected property has the member's
    getter, and gives each such property the member's setter when the member
    has one.  Nothing else changes. *)
Lemma merge_property_run m props found w :
  exists w',
    merge_property m props found w
    = (Returns (found || existsb (fun r => fn_is (prop_getter (heap w r))
                                             (prop_getter (heap w m))) props), w')
    /\ (forall r, heap w' r = merged w m props r)
    /\ calls w' = calls w /\ sent w' = sent w.
Proof.
  revert found w. induction props as [|r0 rest IH]; intros found w.
  - exists w. simpl. unfold ret. rewrite orb_false_r. by repeat split.
  - assert (Hstep : merge_property m (r0 :: rest) found w
      = if fn_is (prop_getter (heap w r0)) (prop_getter (heap w m))
        then match prop_setter (heap w m) with
             | Some s => merge_property m rest true (store_setter r0 (Some s) w)
             | None => merge_property m rest true w
             end
        else merge_property m rest found w).
    { simpl. unfold bind, deref. simpl. destruct (fn_is _ _); [|reflexivity].
      by destruct (prop_setter (heap w m)). }
    rewrite Hstep. clear Hstep. cbn [existsb].
    destruct (fn_is (prop_getter (heap w r0)) (prop_getter (heap w m))) eqn:Hsame.
    + destruct (prop_setter (heap w m)) as [s|] eqn:Hsetter.
      * set (w2 := store_setter r0 (Some s) w).
        assert (Hgetter : forall x, prop_getter (heap w2 x) = prop_getter (heap w x)).
        { intros x. unfold w2, store_setter. simpl.
          by destruct (Nat.eqb_spec x r0) as [->|]. }
        assert (Hsetter2 : prop_setter (heap w2 m) = Some s).
        { unfold w2, store_setter. simpl. by destruct (Nat.eqb_spec m r0). }
        destruct (IH true w2) as (w' & Hrun & Hheap & Hcalls & Hsent).
        exists w'. rewrite Hrun. simpl. rewrite orb_true_r. split; [reflexivity|].
        split; [|by split].
        intros r. rewrite Hheap. unfold merged. rewrite !Hgetter, Hsetter2, Hsetter.
        cbn [existsb]. unfold w2, store_setter. simpl.
        destruct (Nat.eqb_spec r r0) as [->|Hne]; simpl.
        -- rewrite Hsame. by destruct (existsb (Nat.eqb r0) rest).
        -- reflexivity.
      * destruct (IH true w) as (w' & Hrun & Hheap & Hcalls & Hsent).
        exists w'. rewrite Hrun. simpl. rewrite orb_true_r. split; [reflexivity|].
        split; [|by split].
        intros r. rewrite Hheap. unfold merged. rewrite Hsetter.
        by destruct (_ && _), (_ && _).
    + destruct (IH found w) as (w' & Hrun & Hheap & Hcalls & Hsent).
      exists w'. rewrite Hrun. simpl. split; [reflexivity|]. split; [|by split].
      intros r. rewrite Hheap. unfold merged. cbn [existsb].
      destruct (Nat.eqb_spec r r0) as [->|Hne]; simpl; [|reflexivity].
      rewrite Hsame. by rewrite andb_false_r.
Qed.

Lemma merged_getter w m props r : prop_getter (merged w m props r) = prop_getter (heap w r).
Proof.
  unfold merged. destruct (_ && _); [|reflexivity]. by destruct (prop_setter (heap w m)).
Qed.

Lemma filter_nil_false {A} (f : A -> bool) (l : list A) (x : A) :
  List.filter f l = [] -> In x l -> f x = false.
Proof.
  intros Hnil Hin. destruct (f x) eqn:Hfx; [|reflexivity].
  assert (Hx : In x (List.filter f l)) by (apply filter_In; by split).
  rewrite Hnil in Hx. destruct Hx.
Qed.

Lemma filter_singleton_eq {A} (f : A -> bool) (l : list A) (x y : A) :
  List.filter f l = [y] -> In x l -> f x = true -> x = y.
Proof.
  intros Hone Hin Hfx.
  assert (Hx : In x (List.filter f l)) by (apply filter_In; by split).
  rewrite Hone in Hx. destruct Hx as [<-|[]]. reflexivity.
Qed.

Section OneDescriptor.
(** A getter-only descriptor [p] for the getter [g], and the setter [s]
    later declared for it. *)
Variables (g s : pyfn) (p : _Property).
Hypothesis p_getter : prop_getter p = g.

Local Abbreviation p' := (with_setter p (Some s)).
Local Abbreviation known := (declared g s p).

Lemma has_getter_bound : has_getter g p' = true.
Proof. unfold has_getter. simpl. rewrite p_getter. apply fn_is_refl. Qed.

Lemma merged_has_getter w m props r :
  has_getter g (merged w m props r) = has_getter g (heap w r).
Proof. unfold has_getter. by rewrite merged_getter. Qed.

(** Merging keeps the descriptors for [g] among [p] and [p'], and a bound
    one stays bound. *)
Lemma merged_known w m props r :
  prop_setter p = None -> known w m -> known w r ->
  (has_getter g (heap w r) = true -> merged w m props r = p \/ merged w m props r = p')
  /\ (heap w r = p' -> merged w m props r = p').
Proof.
  intros Hunset Hm Hr. unfold merged.
  destruct (existsb (Nat.eqb r) props && _) eqn:Hcond; [|split; [exact Hr | done]].
  apply andb_true_iff in Hcond. destruct Hcond as [_ Hsame].
  destruct (prop_setter (heap w m)) as [s'|] eqn:Hsetter; [|split; [exact Hr | done]].
  assert (Hs' : has_getter g (heap w r) = true -> s' = s).
  { intros Hg. assert (Hgm : has_getter g (heap w m) = true).
    { unfold has_getter in *. rewrite fn_is_sym in Hsame.
      by apply (fn_is_trans _ _ _ Hsame). }
    destruct (Hm Hgm) as [Heq|Heq]; rewrite Heq in Hsetter.
    - congruence.
    - simpl in Hsetter. congruence. }
  split.
  - intros Hg. rewrite (Hs' Hg). right.
    destruct (Hr Hg) as [->| ->]; reflexivity.
  - intros Heq. rewrite Hs'; [by rewrite Heq|].
    rewrite Heq. apply has_getter_bound.
Qed.

(** The outer loop keeps at most one descriptor for [g], and it is the
    bound one as soon as a bound one has been met. *)
Lemma collect_members_one_descriptor members :
  prop_setter p = None ->
  forall self w,
    (forall r, In r (__properties self) -> known w r) ->
    (forall nm r, In (nm, MemberProperty r) members -> known w r) ->
    (List.filter (fun r => has_getter g (heap w r)) (__properties self) = []
     \/ exists r0, List.filter (fun r => has_getter g (heap w r)) (__properties self)
                   = [r0]) ->
    ((exists r, In r (__properties self) /\ heap w r = p')
     \/ (exists nm r, In (nm, MemberProperty r) members /\ heap w r = p')) ->
    exists collected w1 r0,
      collect_members members self w = (Returns collected, w1)
      /\ List.filter (fun r => has_getter g (heap w1 r)) (__properties collected) = [r0]
      /\ heap w1 r0 = p'.
Proof.
  intros Hunset. induction members as [|[nm0 [m|wm|ws|o]] rest IH];
    intros self w Hprops Hmembers Hfilter Hbound.
  - (* no member left: the bound descriptor is among the collected ones *)
    destruct Hbound as [(r & Hin & Hr)|(nm & r & [] & _)].
    exists self, w. destruct Hfilter as [Hnil|[r0 Hone]].
    + assert (Hf := filter_nil_false _ _ r Hnil Hin). simpl in Hf.
      rewrite Hr, has_getter_bound in Hf. discriminate.
    + exists r0. split; [reflexivity|]. split; [exact Hone|].
      assert (r = r0) as <-; [|exact Hr].
      apply (filter_singleton_eq _ _ _ _ Hone Hin). rewrite Hr. apply has_getter_bound.
  - (* a property member *)
    simpl. unfold bind at 1.
    destruct (merge_property_run m (__properties self) false w)
      as (w2 & -> & Hheap & _ & _).
    simpl.
    set (found := existsb _ (__properties self)).
    set (self' := if found then self
                  else with_properties self (__properties self ++ [m])).
    assert (Hm : known w m) by (apply (Hmembers nm0); by left).
    assert (Hkeep : forall r, has_getter g (heap w2 r) = has_getter g (heap w r)).
    { intros r. rewrite Hheap. apply merged_has_getter. }
    assert (Hdecl : forall r, known w r -> known w2 r).
    { intros r Hr. unfold declared. rewrite Hkeep, Hheap.
      apply (merged_known w m _ r Hunset Hm Hr). }
    assert (Hstay : forall r, known w r -> heap w r = p' -> heap w2 r = p').
    { intros r Hr. rewrite Hheap. apply (merged_known w m _ r Hunset Hm Hr). }
    assert (Hsame_filter : forall l,
      List.filter (fun r => has_getter g (heap w2 r)) l
      = List.filter (fun r => has_getter g (heap w r)) l).
    { intros l. apply filter_ext. intros r. apply Hkeep. }
    assert (Hfound : found = true ->
      exists r1, In r1 (__properties self)
                 /\ fn_is (prop_getter (heap w r1)) (prop_getter (heap w m)) = true).
    { unfold found. rewrite existsb_exists. intros [r1 [? ?]]. by exists r1. }
    assert (Hnotfound : found = false -> forall r1, In r1 (__properties self) ->
              fn_is (prop_getter (heap w r1)) (prop_getter (heap w m)) = false).
    { unfold found. intros Hnone r1 Hin.
      destruct (fn_is _ _) eqn:Hsame; [|reflexivity].
      assert (Hex : existsb (fun r => fn_is (prop_getter (heap w r))
                                        (prop_getter (heap w m))) (__properties self)
                    = true) by (apply existsb_exists; by exists r1).
      congruence. }
    apply (IH self' w2).
    + (* collected properties stay declared *)
      intros r Hin. apply Hdecl. unfold self' in Hin. destruct found.
      * by apply Hprops.
      * simpl in Hin. apply in_app_iff in Hin. destruct Hin as [Hin|[<-|[]]].
        -- by apply Hprops.
        -- exact Hm.
    + intros nm r Hin. apply Hdecl. apply (Hmembers nm). by right.
    + (* at most one descriptor for [g] *)
      rewrite Hsame_filter. unfold self'. destruct found eqn:Hf; [exact Hfilter|].
      simpl. rewrite List.filter_app. simpl.
      destruct (has_getter g (heap w m)) eqn:Hgm.
        right. exists m.
        assert (Hnil : List.filter (fun r => has_getter g (heap w r)) (__properties self)
                       = []).
        { destruct (List.filter _ (__properties self)) as [|r1 l] eqn:Hl; [reflexivity|].
          assert (Hr1 : In r1 (List.filter (fun r => has_getter g (heap w r))
                                 (__properties self))) by (rewrite Hl; by left).
          apply filter_In in Hr1. destruct Hr1 as [Hin Hg1].
          pose proof (Hnotfound eq_refl r1 Hin) as Hdiff.
          unfold has_getter in Hg1, Hgm. rewrite fn_is_sym in Hgm.
          rewrite (fn_is_trans _ _ _ Hg1 Hgm) in Hdiff. discriminate. }
        by rewrite Hnil.
      * by rewrite app_nil_r.
    + (* a bound descriptor met so far stays in sight *)
      destruct Hbound as [(r & Hin & Hr)|(nm & r & [Hhead|Hin] & Hr)].
      * left. exists r. split; [|by apply Hstay; [apply Hprops|]].
        unfold self'. destruct found; [exact Hin|]. simpl. apply in_app_iff. by left.
      * injection Hhead as _ <-.
        destruct found eqn:Hf.
        -- destruct (Hfound eq_refl) as (r1 & Hin1 & Hsame).
           left. exists r1. split; [exact Hin1|].
           assert (Hg1 : has_getter g (heap w r1) = true).
           { unfold has_getter. apply (fn_is_trans _ _ _ Hsame).
             rewrite Hr. apply has_getter_bound. }
           rewrite Hheap. unfold merged.
           assert (Hin1' : existsb (Nat.eqb r1) (__properties self) = true)
             by by apply existsb_eqb_In.
           rewrite Hin1', Hsame, Hr. simpl.
           destruct (Hprops r1 Hin1 Hg1) as [->| ->]; reflexivity.
        -- left. exists m. split; [|by apply Hstay].
           unfold self'. simpl. apply in_app_iff. right. by left.
      * right. exists nm, r. split; [exact Hin|]. apply Hstay; [|exact Hr].
        apply (Hmembers nm). by right.
  - (* a method *)
    simpl. apply IH; try done.
    + intros nm r Hin. apply (Hmembers nm). by right.
    + destruct Hbound as [?|(nm & r & [Hhead|Hin] & Hr)]; [by left | discriminate |].
      right. by exists nm, r.
  - (* a signal *)
    simpl. apply IH; try done.
    + intros nm r Hin. apply (Hmembers nm). by right.
    + destruct Hbound as [?|(nm & r & [Hhead|Hin] & Hr)]; [by left | discriminate |].
      right. by exists nm, r.
  - (* anything else *)
    simpl. apply IH; try done.
    + intros nm r Hin. apply (Hmembers nm). by right.
    + destruct Hbound as [?|(nm & r & [Hhead|Hin] & Hr)]; [by left | discriminate |].
      right. by exists nm, r.
Qed.

End OneDescriptor.

Lemma _Property_init_returns `{Collaborators} g base :
  _Property_init g = Returns base -> base_getter base = g /\ base_setter base = None.
Proof.
  unfold _Property_init. destruct (negb _); [discriminate|].
  destruct (fn_return_annotation g); [|discriminate].
  destruct (SignatureTree _) as [tree|]; simpl; [|discriminate].
  destruct (types tree) as [|t [|t' l]]; try discriminate.
  by intros [= <-].
Qed.

(** [set_options] returns when [intr.Property] accepts the name, the
    signature and the access mode, and then returns the descriptor with the
    options applied. *)
Lemma set_options_returns `{Collaborators} self old options p :
  set_options self old options = Returns p ->
  p = with_options self old options
  /\ Property_check (prop_name p) (prop_signature p) (prop_access p) = Returns tt.
Proof.
  unfold set_options, intr_Property.
  destruct (Property_check _ _ _) as [[]|e] eqn:Hcheck; simpl; [|discriminate].
  intros [= <-]. split; [reflexivity | exact Hcheck].
Qed.

Lemma set_options_accepted `{Collaborators} self old options :
  Property_check (prop_name (with_options self old options))
    (prop_signature (with_options self old options))
    (prop_access (with_options self old options)) = Returns tt ->
  set_options self old options = Returns (with_options self old options).
Proof. unfold set_options, intr_Property. by intros ->. Qed.

(** What [dbus_property] returns: a getter-only descriptor carrying the
    options it was given. *)
Lemma dbus_property_returns `{Collaborators} access name disabled g p :
  dbus_property access name disabled g = Returns p ->
  prop_getter p = g /\ prop_setter p = None
  /\ prop_name p = match name with Some n => n | None => fn_name g end
  /\ prop_access p = access /\ prop_disabled p = disabled.
Proof.
  unfold dbus_property. destruct (_Property_init g) as [base|e] eqn:Hinit; simpl;
    [|discriminate].
  intros Hset. apply set_options_returns in Hset. destruct Hset as [-> _]. simpl.
  destruct (_Property_init_returns g base Hinit) as [-> ->]. by repeat split.
Qed.

(** Declaring the setter yields the same descriptor with the setter stored:
    every option is applied again, and [intr.Property] is given the
    arguments it accepted before. *)
Lemma setter_returns `{Collaborators} access name disabled g s p :
  dbus_property access name disabled g = Returns p ->
  setter p s = Returns (with_setter p (Some s)).
Proof.
  unfold dbus_property. destruct (_Property_init g) as [base|e] eqn:Hinit; simpl;
    [|discriminate].
  intros Hset. apply set_options_returns in Hset. destruct Hset as [-> Hcheck].
  unfold setter. simpl.
  destruct (_Property_init_returns g base Hinit) as [Hgetter _].
  rewrite Hgetter, Hinit. simpl.
  rewrite set_options_accepted; [reflexivity|]. exact Hcheck.
Qed.

(** C4.  A getter [g] is declared with [dbus_property], giving [p], and a
    setter [s] is then declared with [p.setter], giving [p'].  Whenever the
    members of the class hold [p'], and hold no other descriptor for [g] than
    [p] and [p'], the collected properties contain exactly one descriptor for
    [g]; its getter is [g], its setter is [s], and its name, access and
    disabled flag are those given to [dbus_property].  An interface that
    [__init__] returns has exactly this collection. *)
Theorem C4_getter_then_setter_one_property `{Collaborators}
    access name disabled g s p p' iface members w :
  dbus_property access name disabled g = Returns p ->
  setter p s = Returns p' ->
  (forall nm r, In (nm, MemberProperty r) members ->
                has_getter g (heap w r) = true -> heap w r = p \/ heap w r = p') ->
  (exists nm r, In (nm, MemberProperty r) members /\ heap w r = p') ->
  exists collected w1 r0,
    collect_members members (empty_interface iface) w = (Returns collected, w1)
    /\ List.filter (fun r => has_getter g (heap w1 r)) (__properties collected) = [r0]
    /\ prop_getter (heap w1 r0) = g
    /\ prop_setter (heap w1 r0) = Some s
    /\ prop_name (heap w1 r0) = match name with Some n => n | None => fn_name g end
    /\ prop_access (heap w1 r0) = access
    /\ prop_disabled (heap w1 r0) = disabled
    /\ (forall self w',
          ServiceInterface__init__ iface members w = (Returns self, w') ->
          self = collected /\ w' = w1).
Proof.
  intros Hp Hp' Hclass Hbound.
  destruct (dbus_property_returns _ _ _ _ _ Hp)
    as (Hgetter & Hsetter & Hname & Haccess & Hdisabled).
  rewrite (setter_returns _ _ _ _ s _ Hp) in Hp'. injection Hp' as <-.
  destruct (collect_members_one_descriptor g s p Hgetter members Hsetter
              (empty_interface iface) w) as (collected & w1 & r0 & Hrun & Hone & Hr0).
  - intros r [].
  - exact Hclass.
  - by left.
  - by right.
  - exists collected, w1, r0. rewrite Hr0. simpl.
    repeat (split; [done|]).
    intros self w' Hinit.
    pose proof (ServiceInterface__init___run iface members w collected w1 Hrun) as Hrun'.
    destruct (existsb lacks_setter _).
    + destruct Hrun' as [e Hraises]. congruence.
    + rewrite Hrun' in Hinit. by injection Hinit as <- <-.
Qed.

Lemma C4_getter_then_setter_one_property_witness :
  exists collected w1 r0,
    collect_members split_members (empty_interface "com.example.Iface")
      (split_world READWRITE) = (Returns collected, w1)
    /\ List.filter (fun r => has_getter string_prop_getter (heap w1 r))
         (__properties collected) = [r0]
    /\ prop_getter (heap w1 r0) = string_prop_getter
    /\ prop_setter (heap w1 r0) = Some string_prop_setter
    /\ prop_name (heap w1 r0) = "string_prop"
    /\ prop_access (heap w1 r0) = READWRITE
    /\ prop_disabled (heap w1 r0) = false
    /\ (forall self w',
          ServiceInterface__init__ "com.example.Iface" split_members (split_world READWRITE)
          = (Returns self, w') ->
          self = collected /\ w' = w1).
Proof.
  apply (@C4_getter_then_setter_one_property basic_collaborators READWRITE None false
           string_prop_getter string_prop_setter
           (getter_only READWRITE None false) (bound READWRITE None false)).
  - reflexivity.
  - reflexivity.
  - intros nm r [Hin|[Hin|[Hin|[]]]] _.
    + discriminate Hin.
    + injection Hin as _ <-. by left.
    + injection Hin as _ <-. by right.
  - exists "string_prop_setter", 1. split; [|reflexivity].
    right. right. by left.
Defined.

(** The two declarations under different names, registered: one property,
    bound, with the options of the getter declaration. *)
Example registration_merges_split_declarations :
  let run := ServiceInterface__init__ "com.example.Iface" split_members
               (split_world READWRITE) in
  option_map __properties (match fst run with Returns self => Some self | Raises _ => None end)
  = Some [0]
  /\ heap (snd run) 0 = bound READWRITE None false.
Proof. split; reflexivity. Qed.

(** * Further properties of the code *)

(** ** Method and signal descriptors *)

Lemma string_app_assoc (a b c : string) : ((a ++ b) ++ c = a ++ (b ++ c))%string.
Proof.
  induction a as [|ch a IH]; [reflexivity|].
  change (String ch ((a ++ b) ++ c) = String ch (a ++ (b ++ c)))%string. by f_equal.
Qed.

Lemma string_app_nil_r (a : string) : (a ++ EmptyString = a)%string.
Proof.
  induction a as [|ch a IH]; [reflexivity|].
  change (String ch (a ++ EmptyString) = String ch a)%string. by f_equal.
Qed.

(** The parameter loop succeeds exactly on annotated parameters, and then
    appends one IN argument and one annotation per parameter. *)
Lemma method_in_args_returns `{Collaborators} ps acc sig args sig' :
  method_in_args ps acc sig = Returns (args, sig') ->
  Forall (fun p => param_annotation p <> None) ps
  /\ args = (acc ++ map in_arg_of ps)%list
  /\ sig' = (sig ++ joined_annotations ps)%string.
Proof.
  revert acc sig args sig'.
  induction ps as [|p rest IH]; intros acc sig args sig'; simpl.
  - intros [= <- <-]. by rewrite app_nil_r, string_app_nil_r.
  - destruct (param_annotation p) as [a|] eqn:Ha; [|discriminate].
    destruct (intr_Arg a intr.IN (Some (param_name p))) as [arg|e] eqn:Harg; simpl;
      [|discriminate].
    apply intr_Arg_returns in Harg. subst arg.
    intros Hrest. destruct (IH _ _ _ _ Hrest) as (Hall & -> & ->).
    split; [constructor; [congruence | exact Hall]|]. split.
    + unfold in_arg_of at 2. rewrite Ha. simpl. by rewrite <- app_assoc.
    + by rewrite string_app_assoc.
Qed.


(** X1.  A method descriptor is only ever built for a function whose
    parameters after [self] all carry an annotation; it then has one IN
    argument per such parameter, in order, named after the parameter and typed
    by its annotation, and its input signature is the concatenation of the
    annotations, whose parse is the input signature tree. *)
Theorem X1_method_in_args `{Collaborators} fn name disabled m :
  _Method_init fn name disabled = Returns m ->
  Forall (fun p => param_annotation p <> None) (tail (fn_parameters fn))
  /\ intr.in_args (method_introspection m) = map in_arg_of (tail (fn_parameters fn))
  /\ length (intr.in_args (method_introspection m)) = length (fn_parameters fn) - 1
  /\ in_signature m = joined_annotations (tail (fn_parameters fn))
  /\ SignatureTree (in_signature m) = Returns (in_signature_tree m)
  /\ intr.method_name (method_introspection m) = name
  /\ method_name m = name /\ method_disabled m = disabled /\ method_fn m = fn.
Proof.
  unfold _Method_init.
  destruct (method_in_args _ _ _) as [[args sig]|e] eqn:Hin; simpl; [|discriminate].
  destruct (method_in_args_returns _ _ _ _ _ Hin) as (Hall & -> & ->).
  destruct (match fn_return_annotation fn with Some _ => _ | None => _ end) as [outs|e];
    simpl; [|discriminate].
  destruct (intr_Method _ _ _) as [im|e] eqn:Him; simpl; [|discriminate].
  apply intr_Method_returns in Him. subst im.
  destruct (SignatureTree _) as [in_tree|e] eqn:Hin_tree; simpl; [|discriminate].
  destruct (SignatureTree (fst outs)) as [out_tree|e]; simpl; [|discriminate].
  intros [= <-]. simpl.
  repeat split; try done.
  rewrite length_map. destruct (fn_parameters fn); simpl; lia.
Qed.

Lemma X1_method_in_args_witness :
  exists m,
    @_Method_init basic_collaborators add_fn "Add" false = Returns m
    /\ intr.in_args (method_introspection m)
       = [intr.mkArg "u" intr.IN (Some "a"); intr.mkArg "u" intr.IN (Some "b")]
    /\ in_signature m = "uu".
Proof.
  destruct (@_Method_init basic_collaborators add_fn "Add" false) as [m|e] eqn:Hm;
    [|discriminate Hm].
  exists m. split; [reflexivity|].
  destruct (@X1_method_in_args basic_collaborators add_fn "Add" false m Hm)
    as (_ & Hargs & _ & Hsig & _).
  split; [exact Hargs | exact Hsig].
Defined.



(** X3.  The OUT side of a method descriptor: with a return annotation, the
    output signature is the annotation as written, the output tree is its
    parse and there is one unnamed OUT argument per complete type of it;
    without one, the output signature is empty and there is no OUT
    argument. *)
Theorem X3_method_out_args `{Collaborators} fn name disabled m :
  _Method_init fn name disabled = Returns m ->
  SignatureTree (out_signature m) = Returns (out_signature_tree m)
  /\ match fn_return_annotation fn with
     | Some r =>
         out_signature m = r
         /\ intr.out_args (method_introspection m) = out_args_of (out_signature_tree m)
         /\ length (intr.out_args (method_introspection m))
            = length (types (out_signature_tree m))
     | None =>
         out_signature m = EmptyString /\ intr.out_args (method_introspection m) = []
     end.
Proof.
  unfold _Method_init.
  destruct (method_in_args _ _ _) as [ins|e]; simpl; [|discriminate].
  destruct (fn_return_annotation fn) as [r|]; simpl.
  - destruct (SignatureTree r) as [tree|e] eqn:Htree; simpl; [|discriminate].
    destruct (make_out_args (types tree) []) as [outs|e] eqn:Houts; simpl; [|discriminate].
    apply make_out_args_returns in Houts. subst outs.
    destruct (intr_Method _ _ _) as [im|e] eqn:Him; simpl; [|discriminate].
    apply intr_Method_returns in Him. subst im.
    destruct (SignatureTree (snd ins)) as [in_tree|e]; simpl; [|discriminate].
    rewrite Htree. simpl. intros [= <-]. simpl.
    repeat split; try done. unfold out_args_of. by rewrite length_map.
  - destruct (intr_Method _ _ _) as [im|e] eqn:Him; simpl; [|discriminate].
    apply intr_Method_returns in Him. subst im.
    destruct (SignatureTree (snd ins)) as [in_tree|e]; simpl; [|discriminate].
    destruct (SignatureTree EmptyString) as [out_tree|e] eqn:Htree; simpl; [|discriminate].
    intros [= <-]. simpl. by repeat split.
Qed.

Lemma X3_method_out_args_witness :
  exists m,
    @_Method_init basic_collaborators add_fn "Add" false = Returns m
    /\ out_signature m = "u"
    /\ intr.out_args (method_introspection m) = [intr.mkArg "u" intr.OUT None].
Proof.
  destruct (@_Method_init basic_collaborators add_fn "Add" false) as [m|e] eqn:Hm;
    [|discriminate Hm].
  exists m. split; [reflexivity|].
  destruct (@X3_method_out_args basic_collaborators add_fn "Add" false m Hm)
    as (_ & Hsig & Hargs & _).
  split; [exact Hsig|]. rewrite Hargs. injection Hm as <-. reflexivity.
Defined.



(** X5.  An empty name is treated differently by the decorators: [method] and
    [signal] test the truth of [name], so the empty string falls back to the
    name of the function as [None] does, while [dbus_property] tests
    [is not None], so the empty string is kept as the name and handed to
    [intr.Property]; when [intr.Property] rejects it, the decorator raises
    that error. *)
Theorem X5_empty_name `{Collaborators} access disabled fn g base e :
  _Property_init g = Returns base ->
  Property_check EmptyString (base_signature base) access = Raises e ->
  dbus_property access (Some EmptyString) disabled g = Raises e
  /\ method (Some EmptyString) disabled fn = method None disabled fn
  /\ signal (Some EmptyString) disabled fn = signal None disabled fn.
Proof.
  intros Hinit Hcheck. split; [|by split].
  unfold dbus_property. rewrite Hinit. simpl.
  unfold set_options, intr_Property. simpl. by rewrite Hcheck.
Qed.

Lemma X5_empty_name_witness :
  @dbus_property basic_collaborators READ (Some EmptyString) false string_prop_getter
  = Raises (InvalidMemberNameError EmptyString)
  /\ @signal basic_collaborators (Some EmptyString) false silent_fn = Returns string_signal.
Proof.
  destruct (@X5_empty_name basic_collaborators READ false silent_fn string_prop_getter
              {| base_getter := string_prop_getter; base_setter := None;
                 base_signature := "s"; base_type := "s" |}
              (InvalidMemberNameError EmptyString) eq_refl eq_refl)
    as (Hprop & _ & Hsignal).
  split; [exact Hprop|]. rewrite Hsignal. reflexivity.
Defined.

(** ** Property descriptors *)

(** X6.  [dbus_property] returns a descriptor exactly for a getter that takes
    [self] alone and whose return annotation parses to a single complete
    type, when [intr.Property] accepts the name, the annotation and the access
    mode; the descriptor then has that getter, no setter, the annotation as
    signature, the options as given, and the name of the getter when no name
    is given. *)
Theorem X6_dbus_property_returns_iff `{Collaborators} access name disabled g p :
  dbus_property access name disabled g = Returns p
  <-> exists r tree type_,
        length (fn_parameters g) = 1
        /\ fn_return_annotation g = Some r
        /\ SignatureTree r = Returns tree
        /\ types tree = [type_]
        /\ Property_check (match name with Some n => n | None => fn_name g end) r access
           = Returns tt
        /\ p = {| prop_getter := g; prop_setter := None; prop_signature := r;
                  prop_type := type_;
                  prop_options := {| opt_name := Some name; opt_access := Some access;
                                     opt_disabled := Some disabled |};
                  prop_name := match name with Some n => n | None => fn_name g end;
                  prop_access := access; prop_disabled := disabled;
                  prop_introspection :=
                    intr.mkProperty (match name with Some n => n | None => fn_name g end)
                      r access |}.
Proof.
  unfold dbus_property, _Property_init. split.
  - destruct (Nat.eqb_spec (length (fn_parameters g)) 1) as [Hlen|Hlen]; simpl;
      [|discriminate].
    destruct (fn_return_annotation g) as [r|] eqn:Hann; simpl; [|discriminate].
    destruct (SignatureTree r) as [tree|e] eqn:Htree; simpl; [|discriminate].
    destruct (types tree) as [|type_ [|t' l]] eqn:Htypes; simpl; try discriminate.
    intros Hset. apply set_options_returns in Hset. destruct Hset as [-> Hcheck].
    exists r, tree, type_. do 4 (split; [done|]).
    split; [|unfold with_options; simpl; by destruct name].
    revert Hcheck. unfold with_options. simpl. by destruct name.
  - intros (r & tree & type_ & Hlen & Hann & Htree & Htypes & Hcheck & ->).
    rewrite Hlen, Hann. simpl. rewrite Htree. simpl. rewrite Htypes. simpl.
    rewrite set_options_accepted.
    + unfold with_options. simpl. by destruct name.
    + unfold with_options. simpl. revert Hcheck. by destruct name.
Qed.

(** X7.  On a descriptor made by [dbus_property], declaring a setter cannot
    fail and returns the same descriptor with the setter stored; declaring
    another setter on the result replaces the first, and the name, the access
    mode, the disabled flag and the options stay as they were. *)
Theorem X7_setter_replaces `{Collaborators} access name disabled g s1 s2 p :
  dbus_property access name disabled g = Returns p ->
  setter p s1 = Returns (with_setter p (Some s1))
  /\ setter (with_setter p (Some s1)) s2 = Returns (with_setter p (Some s2))
  /\ prop_name (with_setter p (Some s2)) = prop_name p
  /\ prop_access (with_setter p (Some s2)) = access
  /\ prop_disabled (with_setter p (Some s2)) = disabled
  /\ prop_options (with_setter p (Some s2)) = prop_options p.
Proof.
  intros Hp. split; [by apply (setter_returns access name disabled g)|].
  revert Hp. unfold dbus_property.
  destruct (_Property_init g) as [base|e] eqn:Hinit; simpl; [|discriminate].
  intros Hset. apply set_options_returns in Hset. destruct Hset as [-> Hcheck].
  destruct (_Property_init_returns g base Hinit) as [Hgetter _].
  split; [|by repeat split].
  unfold setter. simpl. rewrite Hgetter, Hinit. simpl.
  rewrite set_options_accepted; [reflexivity | exact Hcheck].
Qed.

Lemma X7_setter_replaces_witness :
  @setter basic_collaborators (bound READ (Some "Level") true) placeholder_fn
  = Returns (with_setter (getter_only READ (Some "Level") true) (Some placeholder_fn)).
Proof.
  apply (@X7_setter_replaces basic_collaborators READ (Some "Level") true string_prop_getter
           string_prop_setter placeholder_fn (getter_only READ (Some "Level") true)).
  reflexivity.
Defined.

(** ** Attaching and detaching transports *)

Lemma with_buses_same (i : ServiceInterface) : with_buses i (__buses i) = i.
Proof. by destruct i. Qed.

(** X8.  Attaching a transport that is already attached changes nothing, so
    it is still enumerated once.  Attaching two transports in either order
    attaches the same transports: afterwards the same transports are
    enumerated, each once, whatever the order of the enumeration. *)
Theorem X8_add_bus_set (i : ServiceInterface) (a b : bus) :
  _add_bus (_add_bus i b) b = _add_bus i b
  /\ b ∈ __buses (_add_bus i b)
  /\ NoDup (elements (__buses (_add_bus (_add_bus i b) b)))
  /\ (forall x, x ∈ __buses (_add_bus (_add_bus i a) b)
                <-> x ∈ __buses (_add_bus (_add_bus i b) a))
  /\ elements (__buses (_add_bus (_add_bus i a) b))
     ≡ₚ elements (__buses (_add_bus (_add_bus i b) a)).
Proof.
  assert (Hsame : forall x, x ∈ __buses (_add_bus (_add_bus i a) b)
                            <-> x ∈ __buses (_add_bus (_add_bus i b) a)).
  { intros x. unfold _add_bus. simpl. rewrite !elem_of_union. tauto. }
  split.
  { unfold _add_bus, with_buses. simpl. f_equal.
    apply set_eq. intros x. rewrite !elem_of_union. tauto. }
  split.
  { unfold _add_bus. simpl. apply elem_of_union. left. by apply elem_of_singleton. }
  split; [apply NoDup_elements|]. split; [exact Hsame|].
  apply NoDup_Permutation; try apply NoDup_elements.
  intros x. rewrite !elem_of_elements. apply Hsame.
Qed.

(** X9.  Detaching a transport that is not attached raises [KeyError].
    Attaching such a transport and detaching it again succeeds and leaves the
    same transports attached as before, and the name, methods, properties and
    signals of the interface as they were. *)
Theorem X9_remove_bus_not_attached (i : ServiceInterface) (b : bus) :
  b ∉ __buses i ->
  _remove_bus i b = Raises (KeyError "bus")
  /\ exists i',
       _remove_bus (_add_bus i b) b = Returns i'
       /\ (forall x, x ∈ __buses i' <-> x ∈ __buses i)
       /\ iface_name i' = iface_name i /\ __methods i' = __methods i
       /\ __properties i' = __properties i /\ __signals i' = __signals i.
Proof.
  intros Hnot. unfold _remove_bus. split.
  - by destruct (decide (b ∈ __buses i)).
  - destruct (decide (b ∈ __buses (_add_bus i b))) as [_|Hout].
    + eexists. split; [reflexivity|]. split; [|by repeat split].
      intros x. unfold _add_bus. simpl.
      rewrite elem_of_difference, elem_of_union, !elem_of_singleton.
      split; [intros [[->|Hx] Hne]; [by destruct Hne | exact Hx]|].
      intros Hx. split; [by right|]. intros ->. by destruct Hnot.
    + destruct Hout. unfold _add_bus. simpl. apply elem_of_union. left.
      by apply elem_of_singleton.
Qed.

Lemma X9_remove_bus_not_attached_witness :
  _remove_bus (empty_interface "com.example.Iface") 1 = Raises (KeyError "bus")
  /\ exists i',
       _remove_bus (_add_bus (empty_interface "com.example.Iface") 1) 1 = Returns i'
       /\ (1 ∉ __buses i').
Proof.
  destruct (X9_remove_bus_not_attached (empty_interface "com.example.Iface") 1)
    as (Hraise & i' & Hrun & Hsame & _).
  - apply not_elem_of_empty.
  - split; [exact Hraise|]. exists i'. split; [exact Hrun|].
    intros Hin. apply Hsame in Hin. by apply not_elem_of_empty in Hin.
Defined.

(** X10.  Detaching an attached transport succeeds and touches nothing but
    the set of transports; the other transports stay attached, and no signal
    emitted on the resulting interface is delivered to the detached one. *)
Theorem X10_remove_bus_attached (i : ServiceInterface) (b : bus) :
  b ∈ __buses i ->
  exists i',
    _remove_bus i b = Returns i'
    /\ i' = with_buses i (__buses i ∖ {[b]})
    /\ (b ∉ __buses i')
    /\ (forall b', b' <> b -> (b' ∈ __buses i' <-> b' ∈ __buses i))
    /\ (forall ws args w n,
          (b, n) ∈ sent (snd (signal_wrapped ws i' args w)) -> (b, n) ∈ sent w).
Proof.
  intros Hin. exists (with_buses i (__buses i ∖ {[b]})).
  assert (Hgone : b ∉ __buses (with_buses i (__buses i ∖ {[b]}))).
  { simpl. rewrite elem_of_difference, elem_of_singleton. tauto. }
  split; [unfold _remove_bus; by destruct (decide (b ∈ __buses i))|].
  split; [reflexivity|]. split; [exact Hgone|]. split.
  - intros b' Hne. simpl. rewrite elem_of_difference, elem_of_singleton. tauto.
  - intros ws args w n. set (i' := with_buses i (__buses i ∖ {[b]})) in *.
    unfold signal_wrapped.
    destruct (signal_disabled (ws_DBUS_SIGNAL ws)); [done|].
    unfold bind at 1, call_fn.
    destruct (fn_body (ws_fn ws) args) as [r|e]; [|done].
    unfold bind.
    destruct (_fn_result_to_body r (signal_signature_tree (ws_DBUS_SIGNAL ws)))
      as [body|e] eqn:Hbody.
    + rewrite (_handle_signal_returns _ _ _ body _ Hbody). simpl.
      rewrite elem_of_app. intros [Hold|Hnew]; [exact Hold|].
      unfold fan_out in Hnew. apply list_elem_of_fmap in Hnew.
      destruct Hnew as (b' & [= <- _] & Hb'). apply elem_of_elements in Hb'.
      by destruct Hgone.
    + by rewrite (_handle_signal_raises _ _ _ e _ Hbody).
Qed.

Lemma X10_remove_bus_attached_witness :
  exists i',
    _remove_bus two_bus_interface 1 = Returns i'
    /\ (1 ∉ __buses i') /\ (2 ∈ __buses i').
Proof.
  destruct (X10_remove_bus_attached two_bus_interface 1) as (i' & Hrun & _ & Hgone & Hkeep & _).
  - unfold two_bus_interface, _add_bus. simpl.
    apply elem_of_union. right. apply elem_of_union. left. by apply elem_of_singleton.
  - exists i'. split; [exact Hrun|]. split; [exact Hgone|].
    apply (Hkeep 2); [discriminate|].
    unfold two_bus_interface, _add_bus. simpl.
    apply elem_of_union. left. by apply elem_of_singleton.
Defined.

(** ** Body conversion and emission *)

(** X11.  The body conversion returns in exactly three cases: [None] gives the
    empty body; any other value gives the one-element body when one OUT
    argument is declared; a list gives itself when several are declared,
    whatever its length.  In every other case the error raised is a
    [SignatureBodyMismatchError]. *)
Theorem X11_fn_result_to_body_cases result tree body :
  (_fn_result_to_body result tree = Returns body
   <-> (result = PyNone /\ body = [])
       \/ (result <> PyNone /\ length (types tree) = 1 /\ body = [result])
       \/ (1 < length (types tree) /\ result = PyList body))
  /\ (forall e, _fn_result_to_body result tree = Raises e ->
                exists msg, e = SignatureBodyMismatchError msg).
Proof.
  unfold _fn_result_to_body. split.
  - split.
    + destruct (length (types tree)) as [|[|n]] eqn:Hn;
        destruct result; simpl; intros [= <-];
        solve [ by left
              | right; left; repeat split; done
              | right; right; split; [lia | reflexivity] ].
    + intros [[-> ->]|[(Hr & -> & ->)|[Hn ->]]].
      * reflexivity.
      * destruct result; try reflexivity. by destruct Hr.
      * destruct (length (types tree)) as [|[|n]]; try lia. reflexivity.
  - intros e. destruct (length (types tree)) as [|[|n]]; destruct result; simpl;
      intros [= <-]; by eexists.
Qed.

Lemma signal_wrapped_fn_raises ws self args e w :
  signal_disabled (ws_DBUS_SIGNAL ws) = false ->
  fn_body (ws_fn ws) args = Raises e ->
  signal_wrapped ws self args w = (Raises e, record_call (ws_fn ws) args w).
Proof.
  intros Hen Hfn. unfold signal_wrapped. rewrite Hen.
  unfold bind, call_fn. by rewrite Hfn.
Qed.

(** X12.  Emitting a signal is all or nothing.  When the invocation raises,
    for whatever reason (the signal is disabled, the function raises, the
    result does not fit), no transport has been notified.  When it returns,
    the value is the one the function returned, the function was called once
    with the given arguments, and every attached transport has received the
    same notification. *)
Theorem X12_signal_all_or_nothing ws self args w :
  let run := signal_wrapped ws self args w in
  match fst run with
  | Raises e => sent (snd run) = sent w /\ heap (snd run) = heap w
  | Returns r =>
      signal_disabled (ws_DBUS_SIGNAL ws) = false
      /\ fn_body (ws_fn ws) args = Returns r
      /\ exists body,
           _fn_result_to_body r (signal_signature_tree (ws_DBUS_SIGNAL ws)) = Returns body
           /\ snd run
              = record_sent
                  (fan_out (elements (__buses self))
                     (signal_notification self (ws_DBUS_SIGNAL ws) body))
                  (record_call (ws_fn ws) args w)
  end.
Proof.
  intros run. subst run.
  destruct (signal_disabled (ws_DBUS_SIGNAL ws)) eqn:Hen.
  { unfold signal_wrapped. rewrite Hen. by split. }
  destruct (fn_body (ws_fn ws) args) as [r|e] eqn:Hfn.
  2: { rewrite (signal_wrapped_fn_raises _ _ _ e _ Hen Hfn). by split. }
  destruct (_fn_result_to_body r (signal_signature_tree (ws_DBUS_SIGNAL ws)))
    as [body|e] eqn:Hbody.
  - rewrite (signal_wrapped_returns _ _ _ r body _ Hen Hfn Hbody). simpl.
    repeat split. by exists body.
  - rewrite (signal_wrapped_raises _ _ _ r e _ Hen Hfn Hbody). by split.
Qed.

(** ** Registration as a whole *)

Lemma kept_but_setter_refl x : kept_but_setter x x.
Proof. by repeat split. Qed.

Lemma kept_but_setter_trans x y z :
  kept_but_setter x y -> kept_but_setter y z -> kept_but_setter x z.
Proof.
  unfold kept_but_setter. intros (?&?&?&?&?&?&?&?&Hxy) (?&?&?&?&?&?&?&?&Hyz).
  repeat split; try congruence. intros Hx. apply Hyz, Hxy, Hx.
Qed.

Lemma merged_kept_but_setter w m props r : kept_but_setter (heap w r) (merged w m props r).
Proof.
  unfold merged. destruct (_ && _); [|apply kept_but_setter_refl].
  destruct (prop_setter (heap w m)); [|apply kept_but_setter_refl].
  by repeat split.
Qed.

(** The outer loop as a whole: what it collects and what it leaves alone. *)
Lemma collect_members_run members :
  forall self w, exists collected w1,
    collect_members members self w = (Returns collected, w1)
    /\ iface_name collected = iface_name self
    /\ __methods collected = (__methods self ++ method_members members)%list
    /\ __signals collected = (__signals self ++ signal_members members)%list
    /\ __buses collected = __buses self
    /\ (forall r, In r (__properties collected) ->
                  In r (__properties self) \/ In r (property_members members))
    /\ calls w1 = calls w /\ sent w1 = sent w
    /\ (forall r, kept_but_setter (heap w r) (heap w1 r)).
Proof.
  induction members as [|[nm [m|wm|ws|o]] rest IH]; intros self w.
  - exists self, w. simpl. rewrite !app_nil_r.
    do 5 (split; [reflexivity|]). split; [intros r0 Hr0; by left|].
    do 2 (split; [reflexivity|]). intros r0. apply kept_but_setter_refl.
  - simpl. unfold bind at 1.
    destruct (merge_property_run m (__properties self) false w)
      as (w2 & -> & Hheap & Hcalls & Hsent).
    simpl. set (found := existsb _ (__properties self)).
    destruct (IH (if found then self
                  else with_properties self (__properties self ++ [m])) w2)
      as (collected & w1 & -> & Hname & Hmethods & Hsignals & Hbuses & Hprops
          & Hcalls1 & Hsent1 & Hheap1).
    exists collected, w1. split; [reflexivity|].
    split; [rewrite Hname; by destruct found|].
    split; [rewrite Hmethods; by destruct found|].
    split; [rewrite Hsignals; by destruct found|].
    split; [rewrite Hbuses; by destruct found|].
    split.
    { intros r Hr. destruct (Hprops r Hr) as [Hin|Hin]; [|right; by right].
      destruct found; [by left|]. simpl in Hin. apply in_app_iff in Hin.
      destruct Hin as [Hin|[<-|[]]]; [by left | right; by left]. }
    split; [congruence|]. split; [congruence|].
    intros r. apply (kept_but_setter_trans _ (heap w2 r)); [|apply Hheap1].
    rewrite Hheap. apply merged_kept_but_setter.
  - simpl.
    destruct (IH (with_methods self (__methods self ++ [wm_DBUS_METHOD wm])) w)
      as (collected & w1 & -> & Hname & Hmethods & Hsignals & Hbuses & Hprops & Hrest).
    exists collected, w1. split; [reflexivity|]. split; [exact Hname|].
    split; [rewrite Hmethods; simpl; by rewrite <- app_assoc|].
    split; [exact Hsignals|]. split; [exact Hbuses|]. split; [exact Hprops|]. exact Hrest.
  - simpl.
    destruct (IH (with_signals self (__signals self ++ [ws_DBUS_SIGNAL ws])) w)
      as (collected & w1 & -> & Hname & Hmethods & Hsignals & Hbuses & Hprops & Hrest).
    exists collected, w1. split; [reflexivity|]. split; [exact Hname|].
    split; [exact Hmethods|].
    split; [rewrite Hsignals; simpl; by rewrite <- app_assoc|].
    split; [exact Hbuses|]. split; [exact Hprops|]. exact Hrest.
  - simpl. apply IH.
Qed.

(** Registration returns what the outer loop collected, in the world the loop
    left. *)
Lemma ServiceInterface__init___returns name members w self w' :
  ServiceInterface__init__ name members w = (Returns self, w') ->
  collect_members members (empty_interface name) w = (Returns self, w').
Proof.
  intros Hinit.
  destruct (collect_members_returns members (empty_interface name) w)
    as (collected & w1 & Hcollect).
  pose proof (ServiceInterface__init___run name members w collected w1 Hcollect) as Hrun.
  destruct (existsb lacks_setter _).
  - destruct Hrun as [e Hraises]. congruence.
  - rewrite Hrun in Hinit. by injection Hinit as <- <-.
Qed.



(** X14.  Registration changes nothing in a property descriptor but its
    setter, and never takes a setter away: getter, signature, type, options,
    name, access mode, disabled flag and introspection data of every
    descriptor are what they were before, whether registration succeeds or
    raises. *)
Theorem X14_registration_only_sets_setters name members w :
  forall r,
    let w' := snd (ServiceInterface__init__ name members w) in
    prop_getter (heap w' r) = prop_getter (heap w r)
    /\ prop_signature (heap w' r) = prop_signature (heap w r)
    /\ prop_name (heap w' r) = prop_name (heap w r)
    /\ prop_access (heap w' r) = prop_access (heap w r)
    /\ prop_disabled (heap w' r) = prop_disabled (heap w r)
    /\ prop_introspection (heap w' r) = prop_introspection (heap w r)
    /\ (prop_setter (heap w r) <> None -> prop_setter (heap w' r) <> None).
Proof.
  intros r w'.
  destruct (collect_members_run members (empty_interface name) w)
    as (collected & w1 & Hrun & _ & _ & _ & _ & _ & _ & _ & Hheap).
  assert (Hw' : w' = w1).
  { unfold w'.
    pose proof (ServiceInterface__init___run name members w collected w1 Hrun) as Hinit.
    destruct (existsb lacks_setter _).
    - destruct Hinit as [e ->]. reflexivity.
    - by rewrite Hinit. }
  rewrite Hw'. destruct (Hheap r) as (?&?&?&?&?&?&?&?&?). by repeat split.
Qed.

Lemma existsb_getter_id w m props :
  existsb (fun r => fn_is (prop_getter (heap w r)) (prop_getter (heap w m))) props = true
  <-> In (getter_id w m) (map (getter_id w) props).
Proof.
  rewrite existsb_exists, in_map_iff. unfold fn_is, getter_id.
  split; intros (r & H1 & H2); exists r.
  - apply Nat.eqb_eq in H2. by split.
  - split; [done|]. by apply Nat.eqb_eq.
Qed.

(** The outer loop never collects two descriptors with the same getter, and
    every property member ends up represented by the collected descriptor
    with its getter. *)
Lemma collect_members_distinct members :
  forall self w collected w1,
    collect_members members self w = (Returns collected, w1) ->
    NoDup (map (getter_id w) (__properties self)) ->
    NoDup (map (getter_id w1) (__properties collected))
    /\ (forall r, getter_id w1 r = getter_id w r)
    /\ (forall r, In r (__properties self) \/ In r (property_members members) ->
                  In (getter_id w r) (map (getter_id w1) (__properties collected))).
Proof.
  induction members as [|[nm [m|wm|ws|o]] rest IH]; intros self w collected w1; simpl.
  - intros [= <- <-] Hnodup. split; [exact Hnodup|]. split; [done|].
    intros r [Hin|[]]. by apply in_map.
  - unfold bind at 1.
    destruct (merge_property_run m (__properties self) false w)
      as (w2 & -> & Hheap & _ & _).
    simpl. intros Hrest Hnodup.
    assert (Hid : forall r, getter_id w2 r = getter_id w r).
    { intros r. unfold getter_id. by rewrite Hheap, merged_getter. }
    assert (Hmap : forall l, map (getter_id w2) l = map (getter_id w) l).
    { intros l. apply map_ext. exact Hid. }
    pose proof (existsb_getter_id w m (__properties self)) as Hfound.
    destruct (existsb _ (__properties self)) eqn:Hex.
    + destruct (IH _ _ _ _ Hrest) as (Hnd & Hid1 & Hrep); [by rewrite Hmap|].
      split; [exact Hnd|]. split; [intros r; by rewrite Hid1, Hid|].
      intros r [Hin|[Hrm|Hin]]; rewrite <- Hid.
      * apply Hrep. by left.
      * subst r.
        assert (Hm : In (getter_id w m) (map (getter_id w) (__properties self)))
          by by apply Hfound.
        apply in_map_iff in Hm. destruct Hm as (r' & Heq & Hr').
        rewrite Hid, <- Heq, <- Hid. apply Hrep. by left.
      * apply Hrep. by right.
    + destruct (IH _ _ _ _ Hrest) as (Hnd & Hid1 & Hrep).
      { simpl. rewrite Hmap, map_app. simpl. apply NoDup_app. split; [exact Hnodup|].
        split; [|apply NoDup_singleton].
        intros x Hx Hx'. apply list_elem_of_In in Hx, Hx'.
        destruct Hx' as [<-|[]].
        apply Hfound in Hx. discriminate. }
      split; [exact Hnd|]. split; [intros r; by rewrite Hid1, Hid|].
      intros r [Hin|[Hrm|Hin]]; rewrite <- Hid.
      * apply Hrep. left. simpl. apply in_app_iff. by left.
      * subst r. apply Hrep. left. simpl. apply in_app_iff. right. by left.
      * apply Hrep. by right.
  - intros Hrest Hnodup. destruct (IH _ _ _ _ Hrest Hnodup) as (Hnd & Hid1 & Hrep).
    by repeat split.
  - intros Hrest Hnodup. destruct (IH _ _ _ _ Hrest Hnodup) as (Hnd & Hid1 & Hrep).
    by repeat split.
  - intros Hrest Hnodup. destruct (IH _ _ _ _ Hrest Hnodup) as (Hnd & Hid1 & Hrep).
    by repeat split.
Qed.

(** X15.  In an interface that [__init__] returns, no two collected properties
    have the same getter object, and every property descriptor of the class
    is represented: some collected property has its getter. *)
Theorem X15_one_property_per_getter name members w self w' :
  ServiceInterface__init__ name members w = (Returns self, w') ->
  NoDup (map (getter_id w') (__properties self))
  /\ (forall r, In r (property_members members) ->
                exists r', In r' (__properties self)
                           /\ fn_is (prop_getter (heap w' r')) (prop_getter (heap w' r))
                              = true).
Proof.
  intros Hinit. apply ServiceInterface__init___returns in Hinit.
  destruct (collect_members_distinct members (empty_interface name) w self w' Hinit)
    as (Hnd & Hid & Hrep); [constructor|].
  split; [exact Hnd|].
  intros r Hr. specialize (Hrep r (or_intror Hr)).
  apply in_map_iff in Hrep. destruct Hrep as (r' & Heq & Hr').
  exists r'. split; [exact Hr'|].
  unfold fn_is. apply Nat.eqb_eq. rewrite <- Hid in Heq. exact Heq.
Qed.

Lemma X15_one_property_per_getter_witness :
  exists self w',
    ServiceInterface__init__ "com.example.Iface" split_members (split_world READWRITE)
    = (Returns self, w')
    /\ NoDup (map (getter_id w') (__properties self))
    /\ exists r', In r' (__properties self)
                  /\ fn_is (prop_getter (heap w' r')) (prop_getter (heap w' 1)) = true.
Proof.
  destruct (ServiceInterface__init__ "com.example.Iface" split_members
              (split_world READWRITE)) as [[self|e] w'] eqn:Hinit; [|discriminate Hinit].
  exists self, w'. split; [reflexivity|].
  destruct (X15_one_property_per_getter _ _ _ _ _ Hinit) as [Hnd Hrep].
  split; [exact Hnd|]. apply Hrep. simpl. right. by left.
Defined.




(** Whatever it is given, [emit_properties_changed] either returns after
    notifying every attached transport with one and the same notification, or
    raises and leaves the world as it was. *)
Lemma emit_properties_changed_outcome `{Collaborators} self changed invalidated w :
  (exists variant_dict,
     emit_properties_changed self changed invalidated w
     = (Returns tt,
        record_sent
          (fan_out (elements (__buses self))
             (properties_changed_notification self variant_dict invalidated)) w))
  \/ (exists e, emit_properties_changed self changed invalidated w = (Raises e, w)).
Proof.
  unfold emit_properties_changed, bind, _get_properties.
  pose proof (build_variant_dict_world (__properties self) changed ∅ w) as Hworld.
  destruct (build_variant_dict (__properties self) changed ∅ w) as [[vd|e] w'];
    simpl in Hworld; subst w'.
  - left. exists vd.
    apply (for_each_notify (elements (_get_buses self))
             (fun _ => properties_changed_notification self vd invalidated)).
  - right. by exists e.
Qed.



(** X18.  An interface fresh from [__init__] has no transport: emitting a
    signal or a properties-changed notification on it notifies nobody.  Once
    one transport is attached, a properties-changed notification that returns
    has reached that transport once and nobody else, and one that raises has
    reached nobody. *)
Theorem X18_fresh_interface_is_silent `{Collaborators} name members w self w' :
  ServiceInterface__init__ name members w = (Returns self, w') ->
  (forall ws args v, sent (snd (signal_wrapped ws self args v)) = sent v)
  /\ (forall changed invalidated v,
        sent (snd (emit_properties_changed self changed invalidated v)) = sent v)
  /\ (forall b changed invalidated v,
        (exists variant_dict,
           emit_properties_changed (_add_bus self b) changed invalidated v
           = (Returns tt,
              record_sent
                [(b, properties_changed_notification (_add_bus self b) variant_dict
                       invalidated)] v))
        \/ (exists e,
              emit_properties_changed (_add_bus self b) changed invalidated v
              = (Raises e, v))).
Proof.
  intros Hinit. apply ServiceInterface__init___returns in Hinit.
  destruct (collect_members_run members (empty_interface name) w)
    as (collected & w1 & Hrun & _ & _ & _ & Hbuses & _).
  rewrite Hinit in Hrun. injection Hrun as <- <-. simpl in Hbuses.
  split; [|split].
  - intros ws args v. unfold signal_wrapped.
    destruct (signal_disabled (ws_DBUS_SIGNAL ws)); [done|].
    unfold bind at 1, call_fn.
    destruct (fn_body (ws_fn ws) args) as [r|e]; [|done].
    unfold bind.
    destruct (_fn_result_to_body r (signal_signature_tree (ws_DBUS_SIGNAL ws)))
      as [body|e] eqn:Hbody.
    + rewrite (_handle_signal_returns _ _ _ body _ Hbody). simpl.
      rewrite Hbuses, elements_empty. simpl. by rewrite app_nil_r.
    + by rewrite (_handle_signal_raises _ _ _ e _ Hbody).
  - intros changed invalidated v.
    destruct (emit_properties_changed_outcome self changed invalidated v)
      as [[vd ->]|[e ->]]; [|reflexivity].
    simpl. rewrite Hbuses, elements_empty. simpl. by rewrite app_nil_r.
  - intros b changed invalidated v.
    destruct (emit_properties_changed_outcome (_add_bus self b) changed invalidated v)
      as [[vd Hrun]|[e Hrun]]; [left|right; by exists e].
    exists vd. rewrite Hrun. unfold _add_bus at 1. simpl.
    by rewrite Hbuses, union_empty_r_L, elements_singleton.
Qed.

Lemma X18_fresh_interface_is_silent_witness :
  exists self w',
    ServiceInterface__init__ "com.example.Iface" mixed_members (split_world READ)
    = (Returns self, w')
    /\ sent (snd (signal_wrapped two_strings_signal self [PyStr "a"; PyStr "b"] w')) = [].
Proof.
  destruct (ServiceInterface__init__ "com.example.Iface" mixed_members (split_world READ))
    as [[self|e] w'] eqn:Hinit; [|discriminate Hinit].
  exists self, w'. split; [reflexivity|].
  destruct (@X18_fresh_interface_is_silent basic_collaborators _ _ _ _ _ Hinit)
    as [Hsilent _].
  rewrite Hsilent. injection Hinit as _ <-. reflexivity.
Defined.
